(** * vnpy_portfoliostrategy: the strategy engine and the strategy template

    A shallow embedding of [engine.py] (class [StrategyEngine]) and
    [template.py] (class [StrategyTemplate]).

    Conventions of the embedding.
    - Python objects that are shared by reference (the strategy instances held
      by [strategies], [symbol_strategy_map] and [orderid_strategy_map]) live
      in a store [objects], indexed by object identity.
    - Everything the engine hands to a collaborator (event engine, main
      engine, json file) is appended, in order, to [effects].
    - The collaborators (main engine, datafeed, database, the helpers of
      [vnpy.trader.utility]) are not part of the repository: they are the
      fields of [Externals].  The virtual methods of a strategy class are the
      fields of [Hooks].
    - Numbers: positions, targets and volumes are integers (lots); a price is
      an integer number of price quanta; [round_to] stays a collaborator.
    - A [datetime] is a number of seconds. *)

From Stdlib Require Import ZArith Lia.
From stdpp Require Import base decidable option list sorting gmap strings fin_maps.

Local Open Scope Z_scope.

Set Warnings "-clear-no-such-hyp".

(** ** Constants and objects of [vnpy.trader] *)

Inductive Direction := LONG | SHORT | NET.
Inductive Offset := OFFSET_NONE | OPEN | CLOSE | CLOSETODAY | CLOSEYESTERDAY.
Inductive OrderType := LIMIT | MARKET | STOP | FAK | FOK | RFQ.
Inductive Interval := MINUTE | HOUR | DAILY | WEEKLY | TICK.

#[export] Instance Direction_eq_dec : EqDecision Direction.
Proof. solve_decision. Defined.
#[export] Instance Offset_eq_dec : EqDecision Offset.
Proof. solve_decision. Defined.

Definition APP_NAME : string := "PortfolioStrategy".

Record BarData := {
  bar_gateway_name : string;
  bar_symbol : string;
  bar_exchange : string;
  bar_datetime : Z;
  bar_volume : Z;
  open_price : Z;
  high_price : Z;
  low_price : Z;
  close_price : Z
}.

Record TradeData := {
  trade_vt_symbol : string;
  trade_vt_orderid : string;
  trade_vt_tradeid : string;
  trade_direction : Direction;
  trade_volume : Z
}.

Record OrderData := {
  order_gateway_name : string;
  order_symbol : string;
  order_exchange : string;
  order_orderid : string;
  order_vt_orderid : string;
  order_is_active : bool
}.

Record ContractData := {
  contract_gateway_name : string;
  contract_symbol : string;
  contract_exchange : string;
  contract_size : Z;
  pricetick : Z;
  min_volume : Z;
  history_data : bool
}.

Record OrderRequest := {
  req_symbol : string;
  req_exchange : string;
  req_direction : Direction;
  req_offset : Offset;
  req_type : OrderType;
  req_price : Z;
  req_volume : Z;
  req_reference : string
}.

Record CancelRequest := {
  cancel_orderid : string;
  cancel_symbol : string;
  cancel_exchange : string
}.

Record SubscribeRequest := {
  sub_symbol : string;
  sub_exchange : string
}.

Record HistoryRequest := {
  hist_symbol : string;
  hist_exchange : string;
  hist_interval : Interval;
  hist_start : Z;
  hist_end : Z
}.

(** [OrderData.create_cancel_request] *)
Definition create_cancel_request (order : OrderData) : CancelRequest :=
  {| cancel_orderid := order_orderid order;
     cancel_symbol := order_symbol order;
     cancel_exchange := order_exchange order |}.

(** Values of strategy variables, as they are written to and read from the
    json data file. *)
Inductive pyvalue :=
| VNone
| VBool (b : bool)
| VInt (z : Z)
| VStr (s : string)
| VDict (d : gmap string Z).

(** Python truth value, as tested by [if x:] and [if not x:]. *)
Class Truthy (A : Type) := truthy : A → bool.

#[export] Instance pyvalue_truthy : Truthy pyvalue := λ v,
  match v with
  | VNone => false
  | VBool b => b
  | VInt z => negb (z =? 0)
  | VStr s => negb (bool_decide (s = ""))
  | VDict d => negb (bool_decide (d = ∅))
  end.
#[export] Instance string_truthy : Truthy string := λ s, negb (bool_decide (s = "")).
#[export] Instance list_truthy {A} : Truthy (list A) := λ l,
  match l with [] => false | _ => true end.
#[export] Instance option_truthy {A} `{Truthy A} : Truthy (option A) := λ o,
  match o with None => false | Some a => truthy a end.
#[export] Instance gmap_truthy {V} : Truthy (gmap string V) := λ m,
  negb (bool_decide (dom m = ∅)).
(** Instances of the vnpy dataclasses define neither [__bool__] nor
    [__len__]: they are always true. *)
#[export] Instance TradeData_truthy : Truthy TradeData := λ _, true.
#[export] Instance OrderData_truthy : Truthy OrderData := λ _, true.
#[export] Instance BarData_truthy : Truthy BarData := λ _, true.
#[export] Instance ContractData_truthy : Truthy ContractData := λ _, true.
#[export] Instance unit_truthy : Truthy unit := λ _, false.

(** ** The strategy instance ([StrategyTemplate.__init__]) *)

Record Strategy := {
  strategy_name : string;
  vt_symbols : list string;
  inited : bool;
  trading : bool;
  pos_data : gmap string Z;
  target_data : gmap string Z;
  orders : gmap string OrderData;
  active_orderids : gset string;
  variables : list string;
  attrs : gmap string pyvalue
}.

Definition set_inited (b : bool) (s : Strategy) : Strategy :=
  {| strategy_name := strategy_name s; vt_symbols := vt_symbols s;
     inited := b; trading := trading s;
     pos_data := pos_data s; target_data := target_data s;
     orders := orders s; active_orderids := active_orderids s;
     variables := variables s; attrs := attrs s |}.

Definition set_trading (b : bool) (s : Strategy) : Strategy :=
  {| strategy_name := strategy_name s; vt_symbols := vt_symbols s;
     inited := inited s; trading := b;
     pos_data := pos_data s; target_data := target_data s;
     orders := orders s; active_orderids := active_orderids s;
     variables := variables s; attrs := attrs s |}.

Definition set_pos_data (d : gmap string Z) (s : Strategy) : Strategy :=
  {| strategy_name := strategy_name s; vt_symbols := vt_symbols s;
     inited := inited s; trading := trading s;
     pos_data := d; target_data := target_data s;
     orders := orders s; active_orderids := active_orderids s;
     variables := variables s; attrs := attrs s |}.

Definition set_target_data (d : gmap string Z) (s : Strategy) : Strategy :=
  {| strategy_name := strategy_name s; vt_symbols := vt_symbols s;
     inited := inited s; trading := trading s;
     pos_data := pos_data s; target_data := d;
     orders := orders s; active_orderids := active_orderids s;
     variables := variables s; attrs := attrs s |}.

Definition set_orders (d : gmap string OrderData) (s : Strategy) : Strategy :=
  {| strategy_name := strategy_name s; vt_symbols := vt_symbols s;
     inited := inited s; trading := trading s;
     pos_data := pos_data s; target_data := target_data s;
     orders := d; active_orderids := active_orderids s;
     variables := variables s; attrs := attrs s |}.

Definition set_active_orderids (a : gset string) (s : Strategy) : Strategy :=
  {| strategy_name := strategy_name s; vt_symbols := vt_symbols s;
     inited := inited s; trading := trading s;
     pos_data := pos_data s; target_data := target_data s;
     orders := orders s; active_orderids := a;
     variables := variables s; attrs := attrs s |}.

Definition set_attrs (a : gmap string pyvalue) (s : Strategy) : Strategy :=
  {| strategy_name := strategy_name s; vt_symbols := vt_symbols s;
     inited := inited s; trading := trading s;
     pos_data := pos_data s; target_data := target_data s;
     orders := orders s; active_orderids := active_orderids s;
     variables := variables s; attrs := a |}.

(** [StrategyTemplate.__init__]: the state of a new instance.  [class_variables]
    is the class attribute [variables]; the four default names are inserted in
    front of its copy. *)
Definition new_strategy (name : string) (symbols : list string)
    (class_variables : list string) (setting : gmap string pyvalue) : Strategy :=
  {| strategy_name := name; vt_symbols := symbols;
     inited := false; trading := false;
     pos_data := ∅; target_data := ∅;
     orders := ∅; active_orderids := ∅;
     variables := "inited" :: "trading" :: "pos_data" :: "target_data" :: class_variables;
     attrs := setting |}.

(** [getattr(self, name)] for a name of [variables].  Names other than the four
    defaults are attributes declared by the strategy class; an attribute that
    was never assigned reads as [VNone], where Python raises
    [AttributeError]: the model is that of strategies that have a value for
    the variables and the parameters they list. *)
Definition getattr (s : Strategy) (name : string) : pyvalue :=
  if decide (name = "inited") then VBool (inited s)
  else if decide (name = "trading") then VBool (trading s)
  else if decide (name = "pos_data") then VDict (pos_data s)
  else if decide (name = "target_data") then VDict (target_data s)
  else default VNone (attrs s !! name).

(** [setattr(self, name, value)]; the two flags are only ever tested for
    truth, so their truth value is what is kept. *)
Definition setattr (name : string) (value : pyvalue) (s : Strategy) : Strategy :=
  if decide (name = "inited") then set_inited (truthy value) s
  else if decide (name = "trading") then set_trading (truthy value) s
  else set_attrs (<[name := value]> (attrs s)) s.

(** [StrategyTemplate.get_variables] *)
Definition get_variables (s : Strategy) : gmap string pyvalue :=
  foldl (λ strategy_variables name, <[name := getattr s name]> strategy_variables)
        ∅ (variables s).

(** ** The engine ([StrategyEngine.__init__]) *)

(** Identity of a strategy object. *)
Definition ref := nat.

(** Calls made to the collaborators. *)
Inductive Effect :=
| ELog (msg : string)
    (* event_engine.put(Event(EVENT_PORTFOLIO_LOG, LogData(msg))) *)
| EStrategy (name : string) (vars : gmap string pyvalue)
    (* event_engine.put(Event(EVENT_PORTFOLIO_STRATEGY, strategy.get_data())) *)
| ESendOrder (req : OrderRequest) (gateway_name : string)
    (* main_engine.send_order(req, gateway_name) *)
| EUpdateOrderRequest (req : OrderRequest) (vt_orderid gateway_name : string)
    (* main_engine.update_order_request(req, vt_orderid, gateway_name) *)
| ECancelOrder (req : CancelRequest) (gateway_name : string)
    (* main_engine.cancel_order(req, gateway_name) *)
| ESubscribe (req : SubscribeRequest) (gateway_name : string)
    (* main_engine.subscribe(req, gateway_name) *)
| ESaveJson (filename : string) (data : gmap string (gmap string pyvalue)).
    (* save_json(filename, data) *)

Record Engine := {
  objects : gmap ref Strategy;
  strategy_data : gmap string (gmap string pyvalue);
  strategies : gmap string ref;
  symbol_strategy_map : gmap string (list ref);
  orderid_strategy_map : gmap string ref;
  vt_tradeids : gset string;
  effects : list Effect
}.

Definition set_objects (o : gmap ref Strategy) (e : Engine) : Engine :=
  {| objects := o; strategy_data := strategy_data e; strategies := strategies e;
     symbol_strategy_map := symbol_strategy_map e;
     orderid_strategy_map := orderid_strategy_map e;
     vt_tradeids := vt_tradeids e; effects := effects e |}.

Definition set_strategy_data (d : gmap string (gmap string pyvalue)) (e : Engine) : Engine :=
  {| objects := objects e; strategy_data := d; strategies := strategies e;
     symbol_strategy_map := symbol_strategy_map e;
     orderid_strategy_map := orderid_strategy_map e;
     vt_tradeids := vt_tradeids e; effects := effects e |}.

Definition set_orderid_strategy_map (m : gmap string ref) (e : Engine) : Engine :=
  {| objects := objects e; strategy_data := strategy_data e; strategies := strategies e;
     symbol_strategy_map := symbol_strategy_map e;
     orderid_strategy_map := m;
     vt_tradeids := vt_tradeids e; effects := effects e |}.

Definition set_vt_tradeids (t : gset string) (e : Engine) : Engine :=
  {| objects := objects e; strategy_data := strategy_data e; strategies := strategies e;
     symbol_strategy_map := symbol_strategy_map e;
     orderid_strategy_map := orderid_strategy_map e;
     vt_tradeids := t; effects := effects e |}.

(** One more call to a collaborator. *)
Definition emit (x : Effect) (e : Engine) : Engine :=
  {| objects := objects e; strategy_data := strategy_data e; strategies := strategies e;
     symbol_strategy_map := symbol_strategy_map e;
     orderid_strategy_map := orderid_strategy_map e;
     vt_tradeids := vt_tradeids e; effects := effects e ++ [x] |}.

(** Assignment to attributes of the strategy object [r]. *)
Definition upd_strategy (r : ref) (f : Strategy → Strategy) (e : Engine) : Engine :=
  set_objects (alter f r (objects e)) e.

(** Reading an attribute of the strategy object [r]; [dflt] stands for the
    read through a reference to no object, which the engine never holds. *)
Definition read {A} (r : ref) (f : Strategy → A) (dflt : A) (e : Engine) : A :=
  match objects e !! r with Some s => f s | None => dflt end.

(** How a call ends. *)
Inductive outcome := Returned | Raised.

(** A call into a strategy: it may change anything it can reach, and it may
    raise. *)
Definition callback := Engine → Engine * outcome.

(** ** Collaborators and virtual methods *)

Record Externals := {
  (* MainEngine *)
  get_contract : string → option ContractData;
  get_order : string → option OrderData;
  convert_order_request : OrderRequest → string → bool → bool → list OrderRequest;
  (* the id given by the gateway may depend on all earlier calls; the empty
     string means that the request was refused *)
  main_send_order : list Effect → OrderRequest → string → string;
  query_history : HistoryRequest → string → option (list BarData);
  (* BaseDatafeed, BaseDatabase *)
  query_bar_history : HistoryRequest → option (list BarData);
  load_bar_data : string → string → Interval → Z → Z → list BarData;
  (* vnpy.trader.utility, datetime *)
  round_to : Z → Z → Z;
  extract_vt_symbol : string → string * string;
  now : Z
}.

(** The methods a strategy class overrides; [self] is the first argument.
    [on_bars] receives the mapping by value: it is taken not to modify the
    dictionary it is given. *)
Record Hooks := {
  on_init : ref → callback;
  on_start : ref → callback;
  on_stop : ref → callback;
  on_bars : ref → gmap string BarData → callback;
  calculate_price : ref → string → Direction → Z → Z
}.

(** The methods of [StrategyTemplate] itself: [pass], and the reference price
    unchanged. *)
Definition template_hooks : Hooks :=
  {| on_init := λ _ e, (e, Returned);
     on_start := λ _ e, (e, Returned);
     on_stop := λ _ e, (e, Returned);
     on_bars := λ _ _ e, (e, Returned);
     calculate_price := λ _ _ _ reference, reference |}.

#[export] Instance Z_truthy : Truthy Z := λ z, negb (z =? 0).
#[export] Instance bool_truthy : Truthy bool := λ b, b.

Section Program.

Context (env : Externals) (hooks : Hooks).

(** ** [engine.py]: logging, notification, persistence *)

(** [StrategyEngine.write_log] *)
Definition write_log (msg : string) (strategy : option ref) (e : Engine) : Engine :=
  let msg := match strategy with
             | Some r => read r strategy_name "" e +:+ ": " +:+ msg
             | None => msg
             end in
  emit (ELog msg) e.

(** [StrategyEngine.put_strategy_event]; of the snapshot [get_data] the name
    and the variables are kept. *)
Definition put_strategy_event (strategy : ref) (e : Engine) : Engine :=
  match objects e !! strategy with
  | Some s => emit (EStrategy (strategy_name s) (get_variables s)) e
  | None => e
  end.

Definition data_filename : string := "portfolio_strategy_data.json".

(** [StrategyEngine.sync_strategy_data].  [strategy_data] keeps the values
    that the variables have when the method is called, which are the values
    that [save_json] writes.  In the source the two dictionaries kept there
    are the strategy's own, so that a later fill or target shows in
    [self.strategy_data] as well: the model follows the source for the file
    and for the state when the method returns. *)
Definition sync_strategy_data (strategy : ref) (e : Engine) : Engine :=
  match objects e !! strategy with
  | Some s =>
      let data := get_variables s in
      let data := delete "inited" data in
      let data := delete "trading" data in
      let e := set_strategy_data (<[strategy_name s := data]> (strategy_data e)) e in
      emit (ESaveJson data_filename (strategy_data e)) e
  | None => e
  end.

(** ** [engine.py]: order placement and cancellation *)

(** One turn of the loop of [StrategyEngine.send_order] over [req_list]:
    a request for which the gateway gives no id is skipped. *)
Definition submit (strategy : ref) (gateway_name : string)
    (acc : Engine * list string) (req : OrderRequest) : Engine * list string :=
  let '(e, vt_orderids) := acc in
  let vt_orderid := main_send_order env (effects e) req gateway_name in
  let e := emit (ESendOrder req gateway_name) e in
  if truthy vt_orderid then
    let e := emit (EUpdateOrderRequest req vt_orderid gateway_name) e in
    (set_orderid_strategy_map (<[vt_orderid := strategy]> (orderid_strategy_map e)) e,
     vt_orderids ++ [vt_orderid])
  else (e, vt_orderids).

(** [StrategyEngine.send_order].  The source returns the empty string when
    the contract is missing; the caller only iterates over the result, so it
    is the empty list of order ids here. *)
Definition StrategyEngine_send_order (strategy : ref) (vt_symbol : string)
    (direction : Direction) (offset : Offset) (price volume : Z)
    (lock net : bool) (e : Engine) : Engine * list string :=
  match get_contract env vt_symbol with
  | None =>
      (write_log ("Order failed, contract not found: " +:+ vt_symbol) (Some strategy) e, [])
  | Some contract =>
      let price := round_to env price (pricetick contract) in
      let volume := round_to env volume (min_volume contract) in
      let original_req :=
        {| req_symbol := contract_symbol contract;
           req_exchange := contract_exchange contract;
           req_direction := direction;
           req_offset := offset;
           req_type := LIMIT;
           req_price := price;
           req_volume := volume;
           req_reference := APP_NAME +:+ "_" +:+ read strategy strategy_name "" e |} in
      let gateway_name := contract_gateway_name contract in
      let req_list := convert_order_request env original_req gateway_name lock net in
      foldl (submit strategy gateway_name) (e, []) req_list
  end.

(** [StrategyEngine.cancel_order] *)
Definition StrategyEngine_cancel_order (strategy : ref) (vt_orderid : string)
    (e : Engine) : Engine :=
  match get_order env vt_orderid with
  | None =>
      write_log ("Cancellation failed, commission not found " +:+ vt_orderid)
                (Some strategy) e
  | Some order =>
      emit (ECancelOrder (create_cancel_request order) (order_gateway_name order)) e
  end.

(** ** [template.py] *)

(** [StrategyTemplate.update_trade]; [pos_data] is a [defaultdict(int)]. *)
Definition update_trade (self : ref) (trade : TradeData) (e : Engine) : Engine :=
  upd_strategy self
    (λ s, let old := default 0 (pos_data s !! trade_vt_symbol trade) in
          if decide (trade_direction trade = LONG)
          then set_pos_data (<[trade_vt_symbol trade := old + trade_volume trade]> (pos_data s)) s
          else set_pos_data (<[trade_vt_symbol trade := old - trade_volume trade]> (pos_data s)) s)
    e.

(** [StrategyTemplate.update_order] *)
Definition update_order (self : ref) (order : OrderData) (e : Engine) : Engine :=
  upd_strategy self
    (λ s, let s := set_orders (<[order_vt_orderid order := order]> (orders s)) s in
          if negb (order_is_active order)
             && bool_decide (order_vt_orderid order ∈ active_orderids s)
          then set_active_orderids (active_orderids s ∖ {[order_vt_orderid order]}) s
          else s)
    e.

(** [StrategyTemplate.send_order] *)
Definition send_order (self : ref) (vt_symbol : string) (direction : Direction)
    (offset : Offset) (price volume : Z) (lock net : bool) (e : Engine)
    : Engine * list string :=
  if read self trading false e then
    let '(e, vt_orderids) :=
      StrategyEngine_send_order self vt_symbol direction offset price volume lock net e in
    (upd_strategy self
       (λ s, set_active_orderids
               (foldl (λ ids vt_orderid, ids ∪ {[vt_orderid]}) (active_orderids s) vt_orderids)
               s)
       e,
     vt_orderids)
  else (e, []).

(** [StrategyTemplate.buy], [sell], [short], [cover] *)
Definition buy (self : ref) (vt_symbol : string) (price volume : Z) (lock net : bool) :=
  send_order self vt_symbol LONG OPEN price volume lock net.
Definition sell (self : ref) (vt_symbol : string) (price volume : Z) (lock net : bool) :=
  send_order self vt_symbol SHORT CLOSE price volume lock net.
Definition short (self : ref) (vt_symbol : string) (price volume : Z) (lock net : bool) :=
  send_order self vt_symbol SHORT OPEN price volume lock net.
Definition cover (self : ref) (vt_symbol : string) (price volume : Z) (lock net : bool) :=
  send_order self vt_symbol LONG CLOSE price volume lock net.

(** [StrategyTemplate.cancel_order] *)
Definition cancel_order (self : ref) (vt_orderid : string) (e : Engine) : Engine :=
  if read self trading false e
  then StrategyEngine_cancel_order self vt_orderid e
  else e.

(** [StrategyTemplate.cancel_all]; the loop runs over a copy of the set. *)
Definition cancel_all (self : ref) (e : Engine) : Engine :=
  foldl (λ e vt_orderid, cancel_order self vt_orderid e) e
        (elements (read self active_orderids ∅ e)).

(** [StrategyTemplate.get_pos]: [pos_data.get(vt_symbol, 0)] *)
Definition get_pos (self : ref) (vt_symbol : string) (e : Engine) : Z :=
  read self (λ s, default 0 (pos_data s !! vt_symbol)) 0 e.

(** [StrategyTemplate.get_target]: [target_data[vt_symbol]] on a
    [defaultdict(int)], which stores the default it returns. *)
Definition get_target (self : ref) (vt_symbol : string) (e : Engine) : Engine * Z :=
  (upd_strategy self
     (λ s, set_target_data
             (<[vt_symbol := default 0 (target_data s !! vt_symbol)]> (target_data s)) s)
     e,
   read self (λ s, default 0 (target_data s !! vt_symbol)) 0 e).

(** [StrategyTemplate.set_target] *)
Definition set_target (self : ref) (vt_symbol : string) (target : Z) (e : Engine) : Engine :=
  upd_strategy self (λ s, set_target_data (<[vt_symbol := target]> (target_data s)) s) e.

(** The body of the loop of [StrategyTemplate.rebalance_portfolio]. *)
Definition rebalance_symbol (self : ref) (e : Engine) (item : string * BarData) : Engine :=
  let '(vt_symbol, bar) := item in
  let '(e, target) := get_target self vt_symbol e in
  let pos := get_pos self vt_symbol e in
  let diff := target - pos in
  if decide (diff > 0) then
    let order_price := calculate_price hooks self vt_symbol LONG (close_price bar) in
    let '(cover_volume, buy_volume) :=
      if decide (pos < 0)
      then (Z.min diff (Z.abs pos), diff - Z.min diff (Z.abs pos))
      else (0, diff) in
    let e := if truthy cover_volume
             then (cover self vt_symbol order_price cover_volume false false e).1
             else e in
    if truthy buy_volume
    then (buy self vt_symbol order_price buy_volume false false e).1
    else e
  else if decide (diff < 0) then
    let order_price := calculate_price hooks self vt_symbol SHORT (close_price bar) in
    let '(sell_volume, short_volume) :=
      if decide (pos > 0)
      then (Z.min (Z.abs diff) pos, Z.abs diff - Z.min (Z.abs diff) pos)
      else (0, Z.abs diff) in
    let e := if truthy sell_volume
             then (sell self vt_symbol order_price sell_volume false false e).1
             else e in
    if truthy short_volume
    then (short self vt_symbol order_price short_volume false false e).1
    else e
  else e.

(** [StrategyTemplate.rebalance_portfolio].  [bars.items()] is enumerated in
    the order of [map_to_list]; a key occurs once. *)
Definition rebalance_portfolio (self : ref) (bars : gmap string BarData) (e : Engine) : Engine :=
  foldl (rebalance_symbol self) (cancel_all self e) (map_to_list bars).

(** ** [engine.py]: fault isolation and event routing *)

(** A bound method with one parameter, and one with none: called with the
    wrong number of arguments they raise [TypeError]. *)
Definition method1 {P} (f : P → callback) : option P → callback :=
  λ arg, match arg with Some p => f p | None => λ e, (e, Raised) end.
Definition method0 {P} (f : callback) : option P → callback :=
  λ arg, match arg with None => f | Some _ => λ e, (e, Raised) end.

(** A method of the template that cannot raise. *)
Definition total (f : Engine → Engine) : callback := λ e, (f e, Returned).

(** [StrategyEngine.call_strategy_func]: [func(params)] when [params] is
    true, [func()] otherwise; an exception turns both flags off and is
    logged (the text of the traceback is left out). *)
Definition call_strategy_func {P} `{Truthy P} (strategy : ref)
    (func : option P → callback) (params : option P) (e : Engine) : Engine :=
  let arg := if truthy params then params else None in
  let '(e, out) := func arg e in
  match out with
  | Returned => e
  | Raised =>
      let e := upd_strategy strategy (set_trading false) e in
      let e := upd_strategy strategy (set_inited false) e in
      write_log "Trigger exception stopped " (Some strategy) e
  end.

(** [StrategyEngine.process_order_event] *)
Definition process_order_event (order : OrderData) (e : Engine) : Engine :=
  match orderid_strategy_map e !! order_vt_orderid order with
  | None => e
  | Some strategy =>
      call_strategy_func strategy (method1 (λ o, total (update_order strategy o))) (Some order) e
  end.

(** [StrategyEngine.process_trade_event] *)
Definition process_trade_event (trade : TradeData) (e : Engine) : Engine :=
  if bool_decide (trade_vt_tradeid trade ∈ vt_tradeids e) then e
  else
    let e := set_vt_tradeids (vt_tradeids e ∪ {[trade_vt_tradeid trade]}) e in
    match orderid_strategy_map e !! trade_vt_orderid trade with
    | None => e
    | Some strategy =>
        call_strategy_func strategy (method1 (λ t, total (update_trade strategy t))) (Some trade) e
    end.

(** ** [engine.py]: historical data *)

(** [timedelta(days)] in seconds. *)
Definition timedelta (days : Z) : Z := days * 86400.

(** [StrategyEngine.query_bar_from_datafeed] *)
Definition query_bar_from_datafeed (symbol exchange : string) (interval : Interval)
    (start end_ : Z) : option (list BarData) :=
  let req := {| hist_symbol := symbol; hist_exchange := exchange;
                hist_interval := interval; hist_start := start; hist_end := end_ |} in
  query_bar_history env req.

(** [StrategyEngine.load_bar] *)
Definition load_bar (vt_symbol : string) (days : Z) (interval : Interval) : list BarData :=
  let '(symbol, exchange) := extract_vt_symbol env vt_symbol in
  let end_ := now env in
  let start := end_ - timedelta days in
  let contract := get_contract env vt_symbol in
  let data :=
    if truthy contract && truthy (history_data <$> contract) then
      let req := {| hist_symbol := symbol; hist_exchange := exchange;
                    hist_interval := interval; hist_start := start; hist_end := end_ |} in
      query_history env req (default "" (contract_gateway_name <$> contract))
    else
      query_bar_from_datafeed symbol exchange interval start end_ in
  if negb (truthy data)
  then load_bar_data env symbol exchange interval start end_
  else default [] data.

(** The bar that fills a gap at [dt] from the bar cached for the contract. *)
Definition fill_bar (old_bar : BarData) (dt : Z) : BarData :=
  {| bar_gateway_name := bar_gateway_name old_bar;
     bar_symbol := bar_symbol old_bar;
     bar_exchange := bar_exchange old_bar;
     bar_datetime := dt;
     bar_volume := 0;
     open_price := close_price old_bar;
     high_price := close_price old_bar;
     low_price := close_price old_bar;
     close_price := close_price old_bar |}.

(** First loop of [StrategyEngine.load_bars]: one bar enters the set [dts]
    and the dictionary [history_data]. *)
Definition record_bar (vt_symbol : string) (acc : gset Z * gmap (Z * string) BarData)
    (bar : BarData) : gset Z * gmap (Z * string) BarData :=
  let '(dts, history_data) := acc in
  (dts ∪ {[bar_datetime bar]}, <[(bar_datetime bar, vt_symbol) := bar]> history_data).

Definition collect_history (vt_symbols : list string) (days : Z) (interval : Interval)
    : gset Z * gmap (Z * string) BarData :=
  foldl (λ acc vt_symbol,
           foldl (record_bar vt_symbol) acc (load_bar vt_symbol days interval))
        (∅, ∅) vt_symbols.

(** Inner loop of the second part: the dictionary [bars] after the pass over
    the contracts at [dt]. *)
Definition update_bars (history_data : gmap (Z * string) BarData)
    (vt_symbols : list string) (dt : Z) (bars : gmap string BarData)
    : gmap string BarData :=
  foldl (λ bars vt_symbol,
           match history_data !! (dt, vt_symbol) with
           | Some bar => <[vt_symbol := bar]> bars
           | None =>
               match bars !! vt_symbol with
               | Some old_bar => <[vt_symbol := fill_bar old_bar dt]> bars
               | None => bars
               end
           end)
        bars vt_symbols.

(** [StrategyEngine.load_bars] *)
Definition load_bars (strategy : ref) (days : Z) (interval : Interval) (e : Engine) : Engine :=
  let vt_symbols := read strategy vt_symbols [] e in
  let '(dts, history_data) := collect_history vt_symbols days interval in
  let dts := merge_sort Z.le (elements dts) in
  (foldl (λ '(bars, e) dt,
            let bars := update_bars history_data vt_symbols dt bars in
            (bars, call_strategy_func strategy (method1 (on_bars hooks strategy)) (Some bars) e))
         (∅, e) dts).2.

(** ** [engine.py]: life cycle *)

(** One turn of the loop that restores the saved variables in
    [_init_strategy]. [dict.update] of a value that is not a mapping raises. *)
Definition restore_variable (strategy : ref) (data : gmap string pyvalue)
    (acc : Engine * outcome) (name : string) : Engine * outcome :=
  match acc with
  | (e, Raised) => (e, Raised)
  | (e, Returned) =>
      match data !! name with
      | None | Some VNone => (e, Returned)
      | Some value =>
          if decide (name = "pos_data") then
            match value with
            | VDict d => (upd_strategy strategy (λ s, set_pos_data (d ∪ pos_data s) s) e, Returned)
            | VStr "" => (e, Returned)
            | _ => (e, Raised)
            end
          else if decide (name = "target_data") then
            match value with
            | VDict d => (upd_strategy strategy (λ s, set_target_data (d ∪ target_data s) s) e, Returned)
            | VStr "" => (e, Returned)
            | _ => (e, Raised)
            end
          else (upd_strategy strategy (setattr name value) e, Returned)
      end
  end.

(** The subscription loop of [_init_strategy]. *)
Definition subscribe_symbol (strategy : ref) (e : Engine) (vt_symbol : string) : Engine :=
  match get_contract env vt_symbol with
  | Some contract =>
      emit (ESubscribe {| sub_symbol := contract_symbol contract;
                          sub_exchange := contract_exchange contract |}
                       (contract_gateway_name contract)) e
  | None =>
      write_log ("Quote subscription failed, contract " +:+ vt_symbol +:+ " not found")
                (Some strategy) e
  end.

(** [StrategyEngine._init_strategy]; [self.strategies[strategy_name]] raises
    [KeyError] for an unknown name. *)
Definition _init_strategy (name : string) (e : Engine) : Engine * outcome :=
  match strategies e !! name with
  | None => (e, Raised)
  | Some strategy =>
      if read strategy inited false e then
        (write_log (name +:+ " has completed initialization, repeat operations are prohibited")
                   None e,
         Returned)
      else
        let e := write_log (name +:+ " start performing initialization") None e in
        let e := call_strategy_func (P:=unit) strategy (method0 (on_init hooks strategy)) None e in
        let data := strategy_data e !! name in
        let '(e, out) :=
          match data with
          | Some data =>
              if truthy data
              then foldl (restore_variable strategy data) (e, Returned)
                         (read strategy variables [] e)
              else (e, Returned)
          | None => (e, Returned)
          end in
        match out with
        | Raised => (e, Raised)
        | Returned =>
            let e := foldl (subscribe_symbol strategy) e (read strategy vt_symbols [] e) in
            let e := upd_strategy strategy (set_inited true) e in
            let e := put_strategy_event strategy e in
            (write_log (name +:+ " initialization complete") None e, Returned)
        end
  end.


(** [StrategyEngine.stop_strategy] *)
Definition stop_strategy (name : string) (e : Engine) : Engine * outcome :=
  match strategies e !! name with
  | None => (e, Raised)
  | Some strategy =>
      if negb (read strategy trading false e) then (e, Returned)
      else
        let e := call_strategy_func (P:=unit) strategy (method0 (on_stop hooks strategy)) None e in
        let e := upd_strategy strategy (set_trading false) e in
        let e := cancel_all strategy e in
        let e := sync_strategy_data strategy e in
        (put_strategy_event strategy e, Returned)
  end.

End Program.


(** ** Further methods of [template.py] and [engine.py] *)

Record TickData := {
  tick_vt_symbol : string;
  tick_datetime : Z;
  tick_last_price : Z
}.

#[export] Instance TickData_truthy : Truthy TickData := λ _, true.

Definition set_symbol_strategy_map (m : gmap string (list ref)) (e : Engine) : Engine :=
  {| objects := objects e; strategy_data := strategy_data e; strategies := strategies e;
     symbol_strategy_map := m;
     orderid_strategy_map := orderid_strategy_map e;
     vt_tradeids := vt_tradeids e; effects := effects e |}.

Section Routing.

Context (env : Externals).

(** [StrategyTemplate.get_order]: [self.orders.get(vt_orderid, None)] *)
Definition get_order_of (self : ref) (vt_orderid : string) (e : Engine) : option OrderData :=
  read self (λ s, orders s !! vt_orderid) None e.

(** [StrategyEngine.process_tick_event].  [symbol_strategy_map] is a
    [defaultdict(list)]: the lookup stores the empty list for a symbol that
    has no entry.  The list is read once, before the loop; [inited] is read
    when the turn of the strategy comes. *)
Definition process_tick_event (on_tick : ref → TickData → callback)
    (tick : TickData) (e : Engine) : Engine :=
  let strategies := default [] (symbol_strategy_map e !! tick_vt_symbol tick) in
  let e := set_symbol_strategy_map
             (<[tick_vt_symbol tick := strategies]> (symbol_strategy_map e)) e in
  if negb (truthy strategies) then e
  else
    foldl (λ e strategy,
             if read strategy inited false e
             then call_strategy_func strategy (method1 (on_tick strategy)) (Some tick) e
             else e)
          e strategies.

End Routing.

(** ** The registry of strategies: classes, settings, adding and removing *)

(** A strategy class: its name, and the class attributes [author],
    [parameters], [variables] and the default values of the attributes the
    class declares. *)
Record StrategyClass := {
  class_name : string;
  class_author : string;
  class_parameters : list string;
  class_variables : list string;
  class_attrs : gmap string pyvalue
}.

(** One entry of the setting file. *)
Record SettingEntry := {
  setting_class_name : string;
  setting_vt_symbols : list string;
  setting_parameters : gmap string pyvalue
}.

(** The engine together with what the registry needs beside it: the loaded
    classes ([self.classes]), the class of every strategy object
    ([strategy.__class__]) and the writes of the setting file
    ([save_json(self.setting_filename, ...)]), oldest first. *)
Record Registry := {
  engine : Engine;
  classes : gmap string StrategyClass;
  class_of : gmap ref StrategyClass;
  setting_writes : list (gmap string SettingEntry)
}.














Section Shutdown.

Context (env : Externals) (hooks : Hooks).


End Shutdown.

(** ** Observations on the calls made to the collaborators *)

(** The order requests handed to [main_engine.send_order], oldest first. *)
Definition sent_orders (l : list Effect) : list (OrderRequest * string) :=
  omap (λ x, match x with ESendOrder req gw => Some (req, gw) | _ => None end) l.

(** The cancel requests handed to [main_engine.cancel_order]. *)
Definition sent_cancels (l : list Effect) : list (CancelRequest * string) :=
  omap (λ x, match x with ECancelOrder req gw => Some (req, gw) | _ => None end) l.

(** The writes of the json data file. *)
Definition json_writes (l : list Effect) : list (gmap string (gmap string pyvalue)) :=
  omap (λ x, match x with ESaveJson _ data => Some data | _ => None end) l.

(** The messages put on the log. *)
Definition log_messages (l : list Effect) : list string :=
  omap (λ x, match x with ELog msg => Some msg | _ => None end) l.

(** ** The historical sources as the specification orders them *)

(** The first result that is not empty, the last one when all are. *)
Fixpoint first_non_empty (results : list (list BarData)) : list BarData :=
  match results with
  | [] => []
  | [data] => data
  | data :: rest => if truthy data then data else first_non_empty rest
  end.

(** The three sources of [load_bar] for one request. *)
Definition direct_feed (env : Externals) (vt_symbol : string) (days : Z)
    (interval : Interval) : list BarData :=
  let '(symbol, exchange) := extract_vt_symbol env vt_symbol in
  default []
    (query_history env
       {| hist_symbol := symbol; hist_exchange := exchange; hist_interval := interval;
          hist_start := now env - timedelta days; hist_end := now env |}
       (default "" (contract_gateway_name <$> get_contract env vt_symbol))).

Definition data_service (env : Externals) (vt_symbol : string) (days : Z)
    (interval : Interval) : list BarData :=
  let '(symbol, exchange) := extract_vt_symbol env vt_symbol in
  default []
    (query_bar_history env
       {| hist_symbol := symbol; hist_exchange := exchange; hist_interval := interval;
          hist_start := now env - timedelta days; hist_end := now env |}).

Definition local_store (env : Externals) (vt_symbol : string) (days : Z)
    (interval : Interval) : list BarData :=
  let '(symbol, exchange) := extract_vt_symbol env vt_symbol in
  load_bar_data env symbol exchange interval (now env - timedelta days) (now env).

(** The direct feed can be asked when the contract is known and offers
    history. *)
Definition direct_feed_available (env : Externals) (vt_symbol : string) : bool :=
  match get_contract env vt_symbol with
  | Some contract => history_data contract
  | None => false
  end.

(** Specification reading: direct feed, then data service, then local store,
    the first result that is not empty. *)
Definition load_bar_by_priority (env : Externals) (vt_symbol : string) (days : Z)
    (interval : Interval) : list BarData :=
  if direct_feed_available env vt_symbol
  then first_non_empty [direct_feed env vt_symbol days interval;
                        data_service env vt_symbol days interval;
                        local_store env vt_symbol days interval]
  else first_non_empty [data_service env vt_symbol days interval;
                        local_store env vt_symbol days interval].

(** ** Trade fills *)

(** The trade events are delivered one after the other. *)
Definition replay (trades : list TradeData) (e : Engine) : Engine :=
  foldl (λ e trade, process_trade_event trade e) e trades.

(** The first delivery of every trade id that is not in [seen]. *)
Fixpoint first_deliveries (seen : gset string) (trades : list TradeData) : list TradeData :=
  match trades with
  | [] => []
  | trade :: rest =>
      if decide (trade_vt_tradeid trade ∈ seen)
      then first_deliveries seen rest
      else trade :: first_deliveries (seen ∪ {[trade_vt_tradeid trade]}) rest
  end.

(** The volume of a fill with its sign: positive for [LONG], negative for
    [SHORT] (and for [NET], which the ledger treats as any direction other
    than [LONG]). *)
Definition trade_signed_volume (trade : TradeData) : Z :=
  match trade_direction trade with
  | LONG => trade_volume trade
  | SHORT => - trade_volume trade
  | NET => - trade_volume trade
  end.

(** The sum of the signed volumes of the fills of [trades], one per trade id
    not in [seen], that are for contract [i] and whose order id belongs to
    strategy [self] in the index [owner]. *)
Definition filled_volume (owner : gmap string ref) (seen : gset string)
    (self : ref) (i : string) (trades : list TradeData) : Z :=
  foldr (λ trade acc, trade_signed_volume trade + acc) 0
    (filter (λ trade, trade_vt_symbol trade = i
                      ∧ owner !! trade_vt_orderid trade = Some self)
            (first_deliveries seen trades)).

(** ** The bars replayed by [load_bars] *)

(** The dictionaries [bars] handed to [on_bars], one for each timestamp of
    [dts], when the loop starts from the cache [bars]. *)
Fixpoint bar_slices (history_data : gmap (Z * string) BarData)
    (vt_symbols : list string) (dts : list Z) (bars : gmap string BarData)
    : list (gmap string BarData) :=
  match dts with
  | [] => []
  | dt :: rest =>
      let bars := update_bars history_data vt_symbols dt bars in
      bars :: bar_slices history_data vt_symbols rest bars
  end.




(** ** The orders of one rebalancing pass *)

(** One call of [cover], [buy], [sell] or [short] by
    [rebalance_portfolio] ([lock] and [net] keep their default [False]). *)
Record Leg := {
  leg_symbol : string;
  leg_direction : Direction;
  leg_offset : Offset;
  leg_price : Z;
  leg_volume : Z
}.

(** The call itself. *)
Definition place (env : Externals) (self : ref) (e : Engine) (l : Leg) : Engine :=
  (send_order env self (leg_symbol l) (leg_direction l) (leg_offset l)
              (leg_price l) (leg_volume l) false false e).1.

(** The calls of the loop body of [rebalance_portfolio] for one item of
    [bars], in the order of the source, with the volumes of the source. *)
Definition symbol_legs (hooks : Hooks) (self : ref) (e : Engine)
    (item : string * BarData) : list Leg :=
  let '(vt_symbol, bar) := item in
  let target := (get_target self vt_symbol e).2 in
  let pos := get_pos self vt_symbol e in
  let diff := target - pos in
  if decide (diff > 0) then
    let order_price := calculate_price hooks self vt_symbol LONG (close_price bar) in
    let '(cover_volume, buy_volume) :=
      if decide (pos < 0)
      then (Z.min diff (Z.abs pos), diff - Z.min diff (Z.abs pos))
      else (0, diff) in
    (if truthy cover_volume
     then [ {| leg_symbol := vt_symbol; leg_direction := LONG; leg_offset := CLOSE;
               leg_price := order_price; leg_volume := cover_volume |} ]
     else [])
    ++ (if truthy buy_volume
        then [ {| leg_symbol := vt_symbol; leg_direction := LONG; leg_offset := OPEN;
                  leg_price := order_price; leg_volume := buy_volume |} ]
        else [])
  else if decide (diff < 0) then
    let order_price := calculate_price hooks self vt_symbol SHORT (close_price bar) in
    let '(sell_volume, short_volume) :=
      if decide (pos > 0)
      then (Z.min (Z.abs diff) pos, Z.abs diff - Z.min (Z.abs diff) pos)
      else (0, Z.abs diff) in
    (if truthy sell_volume
     then [ {| leg_symbol := vt_symbol; leg_direction := SHORT; leg_offset := CLOSE;
               leg_price := order_price; leg_volume := sell_volume |} ]
     else [])
    ++ (if truthy short_volume
        then [ {| leg_symbol := vt_symbol; leg_direction := SHORT; leg_offset := OPEN;
                  leg_price := order_price; leg_volume := short_volume |} ]
        else [])
  else [].

(** All calls of one pass over [bars], started in state [e]. *)
Definition rebalance_legs (hooks : Hooks) (self : ref) (bars : gmap string BarData)
    (e : Engine) : list Leg :=
  mjoin (symbol_legs hooks self e <$> map_to_list bars).

(** The legs as the specification words them: a closing leg of
    [min(diff, max(0, -position))] and an opening leg of the rest when
    [diff > 0], the mirror image when [diff < 0], legs of volume zero left
    out. *)
Definition specified_legs (vt_symbol : string) (long_price short_price : Z)
    (target position : Z) : list Leg :=
  let diff := target - position in
  if decide (diff > 0) then
    let closing := Z.min diff (Z.max 0 (- position)) in
    filter (λ l, leg_volume l ≠ 0)
      [ {| leg_symbol := vt_symbol; leg_direction := LONG; leg_offset := CLOSE;
           leg_price := long_price; leg_volume := closing |};
        {| leg_symbol := vt_symbol; leg_direction := LONG; leg_offset := OPEN;
           leg_price := long_price; leg_volume := diff - closing |} ]
  else if decide (diff < 0) then
    let closing := Z.min (Z.abs diff) (Z.max 0 position) in
    filter (λ l, leg_volume l ≠ 0)
      [ {| leg_symbol := vt_symbol; leg_direction := SHORT; leg_offset := CLOSE;
           leg_price := short_price; leg_volume := closing |};
        {| leg_symbol := vt_symbol; leg_direction := SHORT; leg_offset := OPEN;
           leg_price := short_price; leg_volume := Z.abs diff - closing |} ]
  else [].

(** Volume of a leg with the sign of its direction, and the net volume of a
    list of legs. *)
Definition leg_signed_volume (l : Leg) : Z :=
  match leg_direction l with
  | LONG => leg_volume l
  | SHORT => - leg_volume l
  | NET => 0
  end.

Definition net_volume (legs : list Leg) : Z :=
  foldr (λ l acc, leg_signed_volume l + acc) 0 legs.

(** Two states in which the strategy [self] reads the same positions and the
    same targets. *)
Definition same_ledger (self : ref) (e e' : Engine) : Prop :=
  ∀ vt_symbol,
    get_pos self vt_symbol e' = get_pos self vt_symbol e
    ∧ (get_target self vt_symbol e').2 = (get_target self vt_symbol e).2.

(** ** Sample collaborators and states *)


Module Sample.

Definition contract_A : ContractData :=
  {| contract_gateway_name := "GW"; contract_symbol := "A"; contract_exchange := "X";
     contract_size := 10; pricetick := 5; min_volume := 1; history_data := true |}.

Definition order_o1 : OrderData :=
  {| order_gateway_name := "GW"; order_symbol := "A"; order_exchange := "X";
     order_orderid := "o1"; order_vt_orderid := "GW.o1"; order_is_active := true |}.

Definition bar (symbol : string) (dt close : Z) : BarData :=
  {| bar_gateway_name := "GW"; bar_symbol := symbol; bar_exchange := "X";
     bar_datetime := dt; bar_volume := 7;
     open_price := close - 2; high_price := close + 1; low_price := close - 3;
     close_price := close |}.

(** Contract [A.X] is known and offers history; its direct feed answers with
    no bar, the data service with one bar, the database with another. *)
Definition env : Externals :=
  {| get_contract := λ vt_symbol, if decide (vt_symbol = "A.X") then Some contract_A else None;
     get_order := λ vt_orderid, if decide (vt_orderid = "GW.o1") then Some order_o1 else None;
     convert_order_request := λ req _ _ _, [req];
     main_send_order := λ _ _ gateway_name, gateway_name +:+ ".o2";
     query_history := λ _ _, Some [];
     query_bar_history := λ req, Some [bar (hist_symbol req) 60 100];
     load_bar_data := λ symbol _ _ _ _, [bar symbol 120 200];
     round_to := λ value target, value `div` target * target;
     extract_vt_symbol := λ vt_symbol,
       if decide (vt_symbol = "A.X") then ("A", "X") else (vt_symbol, "");
     now := 86400 |}.

(** A strategy class whose [on_init] raises at once. *)
Definition failing_hooks : Hooks :=
  {| on_init := λ _ e, (e, Raised);
     on_start := on_start template_hooks;
     on_stop := on_stop template_hooks;
     on_bars := on_bars template_hooks;
     calculate_price := calculate_price template_hooks |}.

Definition strategy_s (is_inited is_trading : bool) : Strategy :=
  set_trading is_trading
    (set_inited is_inited (new_strategy "s" ["A.X"; "B.X"] [] ∅)).

(** An engine with the single strategy ["s"], object 0. *)
Definition engine (s : Strategy) : Engine :=
  {| objects := {[ 0%nat := s ]};
     strategy_data := ∅;
     strategies := {[ "s" := 0%nat ]};
     symbol_strategy_map := {[ "A.X" := [0%nat]; "B.X" := [0%nat] ]};
     orderid_strategy_map := {[ "GW.o1" := 0%nat ]};
     vt_tradeids := ∅;
     effects := [] |}.

(** The strategy trading with a position of 3 lots and a target of -2 lots in
    [A.X], and the same strategy when its target is its position. *)
Definition short_of_target : Strategy :=
  set_target_data {[ "A.X" := -2 ]} (set_pos_data {[ "A.X" := 3 ]} (strategy_s true true)).

Definition at_target : Strategy :=
  set_target_data {[ "A.X" := 3 ]} (set_pos_data {[ "A.X" := 3 ]} (strategy_s true true)).

Definition bars_A : gmap string BarData := {[ "A.X" := bar "A" 60 100 ]}.

Definition fill (tradeid : string) (direction : Direction) (volume : Z) : TradeData :=
  {| trade_vt_symbol := "A.X"; trade_vt_orderid := "GW.o1"; trade_vt_tradeid := tradeid;
     trade_direction := direction; trade_volume := volume |}.

(** The strategy trading with one active order, known to the main engine. *)
Definition with_active_order : Strategy :=
  set_active_orderids {[ "GW.o1" ]} (strategy_s true true).

End Sample.


(** ** Further observations and relations *)

(** The subscriptions handed to [main_engine.subscribe]. *)
Definition subscriptions (l : list Effect) : list (SubscribeRequest * string) :=
  omap (λ x, match x with ESubscribe req gw => Some (req, gw) | _ => None end) l.

(** The notifications of strategy state put on the event engine. *)
Definition strategy_events (l : list Effect) : list (string * gmap string pyvalue) :=
  omap (λ x, match x with EStrategy name vars => Some (name, vars) | _ => None end) l.

(** The four names that [StrategyTemplate.__init__] puts in front of
    [variables]. *)
Definition default_variables : list string :=
  ["inited"; "trading"; "pos_data"; "target_data"].

(** What [sync_strategy_data] keeps of the variables of a strategy. *)
Definition saved_variables (s : Strategy) : gmap string pyvalue :=
  delete "trading" (delete "inited" (get_variables s)).

(** The strategy [s'] is [s0] after the variables named in [names] have been
    restored from [data], whose positions are [dp] and whose targets are
    [dt]: the two dictionaries are merged over those of [s0], the other
    saved values that are not [None] are assigned, nothing else changes. *)
Definition restored_from (data : gmap string pyvalue) (dp dt : gmap string Z)
    (names : list string) (s0 s' : Strategy) : Prop :=
  pos_data s' = (if decide ("pos_data" ∈ names) then dp ∪ pos_data s0 else pos_data s0)
  ∧ target_data s' =
      (if decide ("target_data" ∈ names) then dt ∪ target_data s0 else target_data s0)
  ∧ inited s' = inited s0
  ∧ trading s' = trading s0
  ∧ strategy_name s' = strategy_name s0
  ∧ vt_symbols s' = vt_symbols s0
  ∧ variables s' = variables s0
  ∧ orders s' = orders s0
  ∧ active_orderids s' = active_orderids s0
  ∧ ∀ name, name ∉ default_variables →
      attrs s' !! name =
      match data !! name with
      | None | Some VNone => attrs s0 !! name
      | Some value => if decide (name ∈ names) then Some value else attrs s0 !! name
      end.




(** The attributes of [StrategyTemplate] itself: its three class attributes
    and what [__init__] assigns. *)
Definition template_attributes : list string :=
  ["author"; "parameters"; "variables"; "strategy_engine"; "strategy_name";
   "vt_symbols"; "inited"; "trading"; "pos_data"; "target_data"; "orders";
   "active_orderids"].

(** The parameters of a class are attributes of its own with a value in
    [attributes]: none of them is an attribute of the template, so that
    [setattr] on a parameter reaches no state of the template, and [getattr]
    finds each of them. *)
Definition declares (cls : StrategyClass) (attributes : gmap string pyvalue) : Prop :=
  Forall (λ n, (n ∉ template_attributes) ∧ is_Some (attributes !! n))
         (class_parameters cls).

(** The strategy has a value for every variable it lists: beside the four
    default variables they are attributes of its own, none of them an
    attribute of the template, so that [getattr] raises for none of them. *)
Definition defines_variables (s : Strategy) : Prop :=
  Forall (λ n, n ∈ default_variables
               ∨ ((n ∉ template_attributes) ∧ is_Some (attrs s !! n)))
         (variables s).

(** A strategy object of class [cls] that has a value for every parameter of
    the class and for every variable it lists: [get_parameters],
    [get_variables] and with them [get_data] raise no [AttributeError]. *)
Definition well_formed (cls : StrategyClass) (s : Strategy) : Prop :=
  declares cls (attrs s) ∧ defines_variables s.




(** ** Sample data for the registry and the life cycle *)

Module Desk.

(** A class in the manner of [PairTradingStrategy], with the parameters and
    variables that are whole numbers or strings, and a class that declares
    nothing. *)
Definition pair_trading : StrategyClass :=
  {| class_name := "PairTradingStrategy";
     class_author := "Trader in Python.";
     class_parameters := ["tick_add"; "boll_window"];
     class_variables := ["leg1_symbol"];
     class_attrs := {[ "tick_add" := VInt 1; "boll_window" := VInt 20;
                       "leg1_symbol" := VStr "none" ]} |}.

Definition plain : StrategyClass :=
  {| class_name := "PlainStrategy"; class_author := "nobody";
     class_parameters := []; class_variables := []; class_attrs := ∅ |}.

Definition loaded_classes : gmap string StrategyClass :=
  {[ "PairTradingStrategy" := pair_trading; "PlainStrategy" := plain ]}.

(** The engine of [Sample.engine] as a registry: its strategy ["s"] is of the
    class that declares nothing. *)
Definition registry (s : Strategy) : Registry :=
  {| engine := Sample.engine s; classes := loaded_classes;
     class_of := {[ 0%nat := plain ]}; setting_writes := [] |}.






(** The strategy of [Sample.engine] before its initialization, when the data
    file holds what was saved of [Sample.short_of_target]. *)
Definition restart : Engine :=
  set_strategy_data {[ "s" := saved_variables Sample.short_of_target ]}
    (Sample.engine (Sample.strategy_s false false)).

Definition restart_registry : Registry :=
  {| engine := restart; classes := loaded_classes;
     class_of := {[ 0%nat := plain ]}; setting_writes := [] |}.

(** A strategy class in the manner of the strategies of the package:
    [on_bars] sets a target and rebalances, [on_init] logs and replays one
    day of bars through [on_bars]. *)
Definition targeting_bars : ref → gmap string BarData → callback :=
  λ strategy bars e,
    (rebalance_portfolio Sample.env template_hooks strategy bars
       (set_target strategy "B.X" 1 e), Returned).

Definition replaying_hooks : Hooks :=
  {| on_init := on_init template_hooks;
     on_start := on_start template_hooks;
     on_stop := on_stop template_hooks;
     on_bars := targeting_bars;
     calculate_price := calculate_price template_hooks |}.

Definition preparing_hooks : Hooks :=
  {| on_init := λ strategy e,
       (load_bars Sample.env replaying_hooks strategy 1 MINUTE
          (write_log "Strategy initialization" (Some strategy) e), Returned);
     on_start := on_start template_hooks;
     on_stop := on_stop template_hooks;
     on_bars := targeting_bars;
     calculate_price := calculate_price template_hooks |}.

(** The strategy with two active orders, of which the main engine knows only
    [GW.o1]. *)
Definition with_lost_order : Strategy :=
  set_active_orderids {[ "GW.o1"; "GW.o9" ]} (Sample.strategy_s true true).

(** The order [GW.o1] when it is no longer active. *)
Definition order_o1_done : OrderData :=
  {| order_gateway_name := "GW"; order_symbol := "A"; order_exchange := "X";
     order_orderid := "o1"; order_vt_orderid := "GW.o1"; order_is_active := false |}.

(** The fills of the two legs that bring [Sample.short_of_target] from 3 lots
    to -2 lots, for the order id that the sample gateway gives. *)
Definition fills : list TradeData :=
  [ {| trade_vt_symbol := "A.X"; trade_vt_orderid := "GW.o2"; trade_vt_tradeid := "t1";
       trade_direction := SHORT; trade_volume := 3 |};
    {| trade_vt_symbol := "A.X"; trade_vt_orderid := "GW.o2"; trade_vt_tradeid := "t2";
       trade_direction := SHORT; trade_volume := 2 |} ].

(** Sources of history that have no bar for any contract. *)
Definition no_history : Externals :=
  {| get_contract := get_contract Sample.env;
     get_order := get_order Sample.env;
     convert_order_request := convert_order_request Sample.env;
     main_send_order := main_send_order Sample.env;
     query_history := λ _ _, Some [];
     query_bar_history := λ _, Some [];
     load_bar_data := λ _ _ _ _ _, [];
     round_to := round_to Sample.env;
     extract_vt_symbol := extract_vt_symbol Sample.env;
     now := now Sample.env |}.


Definition failing_tick : ref → TickData → callback := λ _ _ e, (e, Raised).

Definition tick_A : TickData :=
  {| tick_vt_symbol := "A.X"; tick_datetime := 60; tick_last_price := 100 |}.

End Desk.
(** * Properties *)

Section Facts.

Context (env : Externals) (hooks : Hooks).

Implicit Types (e : Engine) (self strategy : ref) (s : Strategy).

Lemma read_lookup {A} self (f : Strategy → A) dflt e s :
  objects e !! self = Some s → read self f dflt e = f s.
Proof. intros H. unfold read. by rewrite H. Qed.

Lemma read_fmap {A} self (f : Strategy → A) dflt e (a : A) :
  f <$> objects e !! self = Some a → read self f dflt e = a.
Proof.
  unfold read. destruct (objects e !! self); simpl; congruence.
Qed.

(** C10. A strategy whose [trading] flag is off places and cancels nothing:
    [send_order], [buy], [sell], [short] and [cover] return no order id and
    leave the whole state as it was (nothing is forwarded to the engine,
    [active_orderids] is unchanged), and so does [cancel_order]. *)
Theorem not_trading_forwards_nothing self e vt_symbol direction offset
    price volume lock net vt_orderid :
  trading <$> objects e !! self = Some false →
  send_order env self vt_symbol direction offset price volume lock net e = (e, [])
  ∧ buy env self vt_symbol price volume lock net e = (e, [])
  ∧ sell env self vt_symbol price volume lock net e = (e, [])
  ∧ short env self vt_symbol price volume lock net e = (e, [])
  ∧ cover env self vt_symbol price volume lock net e = (e, [])
  ∧ cancel_order env self vt_orderid e = e.
Proof.
  intros Hoff.
  unfold buy, sell, short, cover, cancel_order, send_order.
  rewrite (read_fmap _ _ _ _ _ Hoff). done.
Qed.

Lemma sent_orders_snoc l x :
  sent_orders (l ++ [x]) =
  sent_orders l ++ match x with ESendOrder req gw => [(req, gw)] | _ => [] end.
Proof.
  unfold sent_orders. rewrite omap_app. by destruct x.
Qed.

Lemma effects_write_log msg o e :
  ∃ text, effects (write_log msg o e) = effects e ++ [ELog text].
Proof. eexists. reflexivity. Qed.

(** The loop of [StrategyEngine.send_order] hands every request of
    [req_list] to the gateway, in order. *)
Lemma submit_loop_sent_orders strategy gateway_name req_list acc :
  sent_orders (effects (foldl (submit env strategy gateway_name) acc req_list).1)
  = sent_orders (effects acc.1) ++ ((λ req, (req, gateway_name)) <$> req_list).
Proof.
  revert acc. induction req_list as [|req rest IH]; intros [e ids]; simpl.
  - by rewrite app_nil_r.
  - rewrite IH. unfold submit.
    destruct (truthy (main_send_order env (effects e) req gateway_name));
      simpl; rewrite !sent_orders_snoc; simpl;
      rewrite ?app_nil_r, <- ?app_assoc; reflexivity.
Qed.

(** C6. [StrategyEngine.send_order] when the contract is missing: one log
    message, no order id, no other change of state and no exception (the
    function is total).  When the contract is found: the requests handed to
    the gateway are those into which the main engine converts the request
    whose price is [round_to price pricetick] and whose volume is
    [round_to volume min_volume]. *)
Theorem engine_send_order_contract_lookup strategy vt_symbol direction offset
    price volume lock net e :
  let result :=
    StrategyEngine_send_order env strategy vt_symbol direction offset price volume lock net e in
  match get_contract env vt_symbol with
  | None =>
      result =
      (emit (ELog (read strategy strategy_name "" e +:+ ": " +:+
                   ("Order failed, contract not found: " +:+ vt_symbol))) e,
       [])
  | Some contract =>
      let original_req :=
        {| req_symbol := contract_symbol contract;
           req_exchange := contract_exchange contract;
           req_direction := direction;
           req_offset := offset;
           req_type := LIMIT;
           req_price := round_to env price (pricetick contract);
           req_volume := round_to env volume (min_volume contract);
           req_reference := APP_NAME +:+ "_" +:+ read strategy strategy_name "" e |} in
      sent_orders (effects result.1) =
      sent_orders (effects e) ++
      ((λ req, (req, contract_gateway_name contract)) <$>
         convert_order_request env original_req (contract_gateway_name contract) lock net)
  end.
Proof.
  intros result. subst result. unfold StrategyEngine_send_order.
  destruct (get_contract env vt_symbol) as [contract|]; [|reflexivity].
  cbv zeta. apply (submit_loop_sent_orders _ _ _ (e, [])).
Qed.

(** C8, as the code has it. [load_bar] asks one primary source, the direct
    feed when the contract is known and offers history and the data service
    otherwise, and falls back on the local store when the answer is empty;
    the data service is not asked after an empty answer of the direct feed. *)
Theorem load_bar_primary_then_local_store vt_symbol days interval :
  load_bar env vt_symbol days interval =
  if direct_feed_available env vt_symbol
  then first_non_empty [direct_feed env vt_symbol days interval;
                        local_store env vt_symbol days interval]
  else first_non_empty [data_service env vt_symbol days interval;
                        local_store env vt_symbol days interval].
Proof.
  unfold load_bar, direct_feed_available, direct_feed, data_service, local_store,
    query_bar_from_datafeed.
  destruct (extract_vt_symbol env vt_symbol) as [symbol exchange].
  destruct (get_contract env vt_symbol) as [contract|]; simpl.
  - destruct (history_data contract); simpl.
    + destruct (query_history env _ _) as [[|b l]|]; reflexivity.
    + destruct (query_bar_history env _) as [[|b l]|]; reflexivity.
  - destruct (query_bar_history env _) as [[|b l]|]; reflexivity.
Qed.

(** *** What the order path leaves alone *)

Lemma read_upd {A} (g : Strategy → A) r self f dflt e :
  (∀ s, g (f s) = g s) →
  read self g dflt (upd_strategy r f e) = read self g dflt e.
Proof.
  intros Hg. unfold read, upd_strategy. simpl.
  rewrite lookup_alter. case_decide; [subst|done].
  destruct (objects e !! self); simpl; auto.
Qed.

Lemma read_same_objects {A} (g : Strategy → A) self dflt e e' :
  objects e' = objects e → read self g dflt e' = read self g dflt e.
Proof. unfold read. by intros ->. Qed.

Lemma objects_submit_loop strategy gateway_name req_list acc :
  objects (foldl (submit env strategy gateway_name) acc req_list).1 = objects acc.1.
Proof.
  revert acc. induction req_list as [|req rest IH]; intros [e ids]; [done|].
  simpl. rewrite IH. unfold submit.
  by destruct (truthy (main_send_order env (effects e) req gateway_name)).
Qed.

Lemma objects_engine_send_order strategy vt_symbol direction offset price volume
    lock net e :
  objects (StrategyEngine_send_order env strategy vt_symbol direction offset
             price volume lock net e).1 = objects e.
Proof.
  unfold StrategyEngine_send_order.
  destruct (get_contract env vt_symbol); [|done].
  cbv zeta. by rewrite objects_submit_loop.
Qed.

Lemma objects_cancel_order self vt_orderid e :
  objects (cancel_order env self vt_orderid e) = objects e.
Proof.
  unfold cancel_order, StrategyEngine_cancel_order.
  destruct (read self trading false e); [|done].
  by destruct (get_order env vt_orderid).
Qed.

Lemma objects_cancel_loop self ids e :
  objects (foldl (λ e vt_orderid, cancel_order env self vt_orderid e) e ids) = objects e.
Proof.
  revert e. induction ids as [|i ids IH]; intros e; [done|].
  simpl. by rewrite IH, objects_cancel_order.
Qed.

Lemma objects_cancel_all self e : objects (cancel_all env self e) = objects e.
Proof. apply objects_cancel_loop. Qed.

Lemma read_place {A} (g : Strategy → A) dflt self e l :
  (∀ s a, g (set_active_orderids a s) = g s) →
  read self g dflt (place env self e l) = read self g dflt e.
Proof.
  intros Hg. unfold place, send_order.
  destruct (read self trading false e); [|done].
  pose proof (objects_engine_send_order self (leg_symbol l) (leg_direction l)
                (leg_offset l) (leg_price l) (leg_volume l) false false e) as Hobj.
  destruct (StrategyEngine_send_order _ _ _ _ _ _ _ _ _ _) as [e1 ids].
  simpl in *. rewrite read_upd by (intros; apply Hg).
  by apply read_same_objects.
Qed.

Lemma same_ledger_refl self e : same_ledger self e e.
Proof. by intros k. Qed.

Lemma same_ledger_trans self e1 e2 e3 :
  same_ledger self e1 e2 → same_ledger self e2 e3 → same_ledger self e1 e3.
Proof.
  intros H12 H23 k. destruct (H12 k) as [<- <-]. apply H23.
Qed.

Lemma same_ledger_place self e l : same_ledger self e (place env self e l).
Proof.
  intros k. split.
  - unfold get_pos. by apply read_place.
  - simpl. by apply read_place.
Qed.

Lemma same_ledger_get_target self vt_symbol e :
  same_ledger self e (get_target self vt_symbol e).1.
Proof.
  intros k. split.
  - unfold get_pos. simpl. by apply read_upd.
  - simpl. unfold read, upd_strategy. simpl.
    rewrite lookup_alter_eq. destruct (objects e !! self) as [s|]; [|done].
    simpl. destruct (decide (vt_symbol = k)) as [->|Hne].
    + by rewrite lookup_insert_eq.
    + by rewrite lookup_insert_ne.
Qed.

Lemma same_ledger_cancel_all self e : same_ledger self e (cancel_all env self e).
Proof.
  intros k. unfold get_pos. simpl.
  split; apply read_same_objects, objects_cancel_all.
Qed.

Lemma same_ledger_places self legs e :
  same_ledger self e (foldl (place env self) e legs).
Proof.
  revert e. induction legs as [|l legs IH]; intros e; simpl.
  - apply same_ledger_refl.
  - eapply same_ledger_trans; [apply same_ledger_place | apply IH].
Qed.

Lemma symbol_legs_same_ledger self e e' item :
  same_ledger self e e' → symbol_legs hooks self e' item = symbol_legs hooks self e item.
Proof.
  intros H. destruct item as [k bar]. unfold symbol_legs.
  destruct (H k) as [-> ->]. reflexivity.
Qed.

(** The loop body of [rebalance_portfolio] reads the target and then makes
    the calls of [symbol_legs]. *)
Lemma rebalance_symbol_places self e item :
  rebalance_symbol env hooks self e item =
  foldl (place env self) (get_target self item.1 e).1 (symbol_legs hooks self e item).
Proof.
  destruct item as [k bar].
  unfold rebalance_symbol, symbol_legs.
  destruct (same_ledger_get_target self k e k) as [Hpos _].
  cbv beta iota zeta delta [get_target fst snd]. fold (get_target self k e).
  cbv beta iota zeta delta [get_target fst snd] in Hpos.
  rewrite Hpos.
  set (target := read self (λ s, default 0 (target_data s !! k)) 0 e).
  set (pos := get_pos self k e).
  repeat case_decide;
    repeat match goal with |- context [truthy ?z] => destruct (truthy z) end;
    reflexivity.
Qed.

Lemma rebalance_loop_places self e0 items e :
  same_ledger self e0 e →
  foldl (rebalance_symbol env hooks self) e items =
  foldl (λ e' item,
           foldl (place env self) (get_target self item.1 e').1
                 (symbol_legs hooks self e0 item))
        e items.
Proof.
  revert e. induction items as [|item items IH]; intros e Hsame; [done|].
  simpl. rewrite rebalance_symbol_places, (symbol_legs_same_ledger _ _ _ _ Hsame).
  apply IH.
  eapply same_ledger_trans; [exact Hsame|].
  eapply same_ledger_trans; [apply same_ledger_get_target | apply same_ledger_places].
Qed.

(** *** The legs of one contract *)

Lemma filter_all {A} (P : A → Prop) `{∀ x, Decision (P x)} (l : list A) :
  Forall P l → filter P l = l.
Proof.
  induction 1 as [|x l Hx _ IH]; [done|].
  by rewrite filter_cons_True, IH.
Qed.

Lemma filter_none {A} (P : A → Prop) `{∀ x, Decision (P x)} (l : list A) :
  Forall (λ x, ¬ P x) l → filter P l = [].
Proof.
  induction 1 as [|x l Hx _ IH]; [done|].
  by rewrite filter_cons_False.
Qed.

Lemma symbol_legs_symbol self e k bar :
  Forall (λ l, leg_symbol l = k) (symbol_legs hooks self e (k, bar)).
Proof.
  unfold symbol_legs.
  repeat case_decide;
    repeat match goal with |- context [truthy ?z] => destruct (truthy z) end;
    simpl; repeat constructor.
Qed.

Lemma filter_legs_of_symbol self e (items : list (string * BarData)) i bar :
  NoDup items.*1 → (i, bar) ∈ items →
  filter (λ l, leg_symbol l = i) (mjoin (symbol_legs hooks self e <$> items))
  = symbol_legs hooks self e (i, bar).
Proof.
  assert (Hcons : ∀ x (rest : list (string * BarData)),
            mjoin (symbol_legs hooks self e <$> x :: rest) =
            symbol_legs hooks self e x ++ mjoin (symbol_legs hooks self e <$> rest))
    by reflexivity.
  assert (Hnone : ∀ rest : list (string * BarData), i ∉ rest.*1 →
            filter (λ l, leg_symbol l = i) (mjoin (symbol_legs hooks self e <$> rest)) = []).
  { induction rest as [|[k b] rest IH]; intros Hi; [done|].
    rewrite fmap_cons in Hi. apply not_elem_of_cons in Hi as [Hne Hi].
    rewrite Hcons, filter_app, IH by done.
    rewrite filter_none; [done|].
    eapply Forall_impl; [apply symbol_legs_symbol|].
    simpl in *. congruence. }
  induction items as [|[k b] items IH]; intros Hnd Hin; [by apply elem_of_nil in Hin|].
  rewrite fmap_cons in Hnd. apply NoDup_cons in Hnd as [Hk Hnd].
  rewrite Hcons, filter_app.
  apply elem_of_cons in Hin as [Heq|Hin].
  - injection Heq as <- <-.
    rewrite Hnone by done. rewrite app_nil_r.
    apply filter_all, symbol_legs_symbol.
  - assert (k ≠ i).
    { intros ->. apply Hk. apply list_elem_of_fmap. by exists (i, bar). }
    rewrite IH by done.
    rewrite filter_none; [done|].
    eapply Forall_impl; [apply symbol_legs_symbol|].
    simpl. congruence.
Qed.

(** The volumes of the source are the volumes of the specification. *)
Lemma symbol_legs_specified self e i bar :
  symbol_legs hooks self e (i, bar) =
  specified_legs i
    (calculate_price hooks self i LONG (close_price bar))
    (calculate_price hooks self i SHORT (close_price bar))
    (get_target self i e).2 (get_pos self i e).
Proof.
  unfold symbol_legs, specified_legs.
  set (target := (get_target self i e).2). set (pos := get_pos self i e).
  unfold truthy, Z_truthy.
  repeat case_decide; try lia; try reflexivity.
  - replace (Z.max 0 (- pos)) with (Z.abs pos) by lia.
    rewrite !filter_cons, filter_nil. simpl.
    repeat case_decide;
      repeat match goal with |- context [?z =? 0] => destruct (Z.eqb_spec z 0) end;
      simpl; try reflexivity; lia.
  - replace (Z.min (target - pos) (Z.max 0 (- pos))) with 0 by lia.
    rewrite !filter_cons, filter_nil. simpl.
    repeat case_decide;
      repeat match goal with |- context [?z =? 0] => destruct (Z.eqb_spec z 0) end;
      simpl; try reflexivity; try lia.
    all: try (f_equal; f_equal; lia).
  - replace (Z.max 0 pos) with pos by lia.
    rewrite !filter_cons, filter_nil. simpl.
    repeat case_decide;
      repeat match goal with |- context [?z =? 0] => destruct (Z.eqb_spec z 0) end;
      simpl; try reflexivity; lia.
  - replace (Z.min (Z.abs (target - pos)) (Z.max 0 pos)) with 0 by lia.
    rewrite !filter_cons, filter_nil. simpl.
    repeat case_decide;
      repeat match goal with |- context [?z =? 0] => destruct (Z.eqb_spec z 0) end;
      simpl; try reflexivity; try lia.
    all: try (f_equal; f_equal; lia).
Qed.

Lemma net_volume_specified i long_price short_price target position :
  net_volume (specified_legs i long_price short_price target position) = target - position.
Proof.
  unfold specified_legs.
  repeat case_decide.
  - rewrite !filter_cons, filter_nil. simpl.
    repeat case_decide; unfold net_volume, leg_signed_volume; simpl; lia.
  - rewrite !filter_cons, filter_nil. simpl.
    repeat case_decide; unfold net_volume, leg_signed_volume; simpl; lia.
  - simpl. lia.
Qed.

(** C4. In one pass of [rebalance_portfolio], started in state [e], the
    calls of [cover], [buy], [sell] and [short] are those of [rebalance_legs],
    made contract by contract after the cancellation of the active orders.
    For a contract [i] of [bars], with [diff = target - position], the legs
    for [i] are the close-short leg of [min(diff, max(0, -position))] and the
    open-long leg of the rest when [diff > 0], the close-long leg of
    [min(|diff|, max(0, position))] and the open-short leg of the rest when
    [diff < 0], without the legs of volume zero; their signed net volume is
    [target - position]. *)
Theorem rebalance_legs_net_to_target self bars e i bar :
  bars !! i = Some bar →
  let position := get_pos self i e in
  let target := (get_target self i e).2 in
  let legs := filter (λ l, leg_symbol l = i) (rebalance_legs hooks self bars e) in
  rebalance_portfolio env hooks self bars e =
    foldl (λ e' item,
             foldl (place env self) (get_target self item.1 e').1
                   (symbol_legs hooks self e item))
          (cancel_all env self e) (map_to_list bars)
  ∧ legs = specified_legs i
             (calculate_price hooks self i LONG (close_price bar))
             (calculate_price hooks self i SHORT (close_price bar))
             target position
  ∧ net_volume legs = target - position.
Proof.
  intros Hbar position target legs.
  assert (Hlegs : legs = specified_legs i
             (calculate_price hooks self i LONG (close_price bar))
             (calculate_price hooks self i SHORT (close_price bar))
             target position).
  { subst legs. unfold rebalance_legs.
    rewrite (filter_legs_of_symbol self e _ i bar).
    - apply symbol_legs_specified.
    - apply NoDup_fst_map_to_list.
    - by apply elem_of_map_to_list. }
  split; [|split].
  - unfold rebalance_portfolio. apply rebalance_loop_places, same_ledger_cancel_all.
  - exact Hlegs.
  - rewrite Hlegs. apply net_volume_specified.
Qed.

Lemma effects_cancel_order self vt_orderid e :
  sent_orders (effects (cancel_order env self vt_orderid e)) = sent_orders (effects e)
  ∧ orderid_strategy_map (cancel_order env self vt_orderid e) = orderid_strategy_map e.
Proof.
  unfold cancel_order, StrategyEngine_cancel_order.
  destruct (read self trading false e); [|done].
  destruct (get_order env vt_orderid); simpl;
    rewrite sent_orders_snoc, app_nil_r; done.
Qed.

Lemma effects_cancel_all self e :
  sent_orders (effects (cancel_all env self e)) = sent_orders (effects e)
  ∧ orderid_strategy_map (cancel_all env self e) = orderid_strategy_map e.
Proof.
  unfold cancel_all. generalize (elements (read self active_orderids ∅ e)).
  intros ids. revert e. induction ids as [|i ids IH]; intros e; [done|].
  simpl. destruct (IH (cancel_order env self i e)) as [-> ->].
  apply effects_cancel_order.
Qed.

(** A pass in which no leg is due only reads the targets. *)
Lemma rebalance_loop_without_legs self e0 (items : list (string * BarData)) e :
  Forall (λ item, symbol_legs hooks self e0 item = []) items →
  ∃ e', e' = foldl (λ e' item,
                     foldl (place env self) (get_target self item.1 e').1
                           (symbol_legs hooks self e0 item)) e items
  ∧ effects e' = effects e
  ∧ orderid_strategy_map e' = orderid_strategy_map e
  ∧ read self active_orderids ∅ e' = read self active_orderids ∅ e.
Proof.
  intros Hall. revert e.
  induction Hall as [|item items Hnil _ IH]; intros e; [by exists e|].
  destruct (IH (get_target self item.1 e).1) as (e' & -> & H1 & H2 & H3).
  eexists. split; [reflexivity|].
  cbn [foldl]. rewrite Hnil. cbn [foldl].
  rewrite H1, H2, H3. repeat split.
  unfold get_target. cbn [fst]. by apply read_upd.
Qed.

(** C5. When the position equals the target for every contract of [bars],
    [rebalance_portfolio] makes no call of [cover], [buy], [sell] or [short]:
    no order request reaches the gateway, no order id is registered with the
    engine or added to [active_orderids]. *)
Theorem rebalance_at_target_sends_nothing self bars e :
  (∀ i bar, bars !! i = Some bar → get_pos self i e = (get_target self i e).2) →
  let e' := rebalance_portfolio env hooks self bars e in
  rebalance_legs hooks self bars e = []
  ∧ sent_orders (effects e') = sent_orders (effects e)
  ∧ orderid_strategy_map e' = orderid_strategy_map e
  ∧ read self active_orderids ∅ e' = read self active_orderids ∅ e.
Proof.
  intros Hat e'.
  assert (Hall : Forall (λ item, symbol_legs hooks self e item = []) (map_to_list bars)).
  { apply Forall_forall. intros [i bar] Hin. apply elem_of_map_to_list in Hin.
    rewrite symbol_legs_specified. unfold specified_legs.
    rewrite (Hat i bar Hin). repeat case_decide; try lia. reflexivity. }
  split.
  { unfold rebalance_legs. apply join_nil_2. by apply Forall_fmap. }
  subst e'. unfold rebalance_portfolio.
  rewrite (rebalance_loop_places self e) by apply same_ledger_cancel_all.
  destruct (rebalance_loop_without_legs self e (map_to_list bars)
              (cancel_all env self e) Hall) as (e' & <- & -> & -> & ->).
  destruct (effects_cancel_all self e) as [-> ->].
  repeat split. apply read_same_objects, objects_cancel_all.
Qed.

(** *** Trade fills *)

Lemma first_deliveries_ids seen trades :
  NoDup (trade_vt_tradeid <$> first_deliveries seen trades)
  ∧ ∀ id, id ∈ trade_vt_tradeid <$> first_deliveries seen trades
          ↔ id ∈ trade_vt_tradeid <$> trades ∧ id ∉ seen.
Proof.
  revert seen. induction trades as [|t rest IH]; intros seen; simpl.
  - split; [constructor|]. set_solver.
  - case_decide as Hseen.
    + destruct (IH seen) as [Hnd Hiff]. split; [done|].
      intros id. rewrite Hiff. set_solver.
    + destruct (IH (seen ∪ {[trade_vt_tradeid t]})) as [Hnd Hiff].
      rewrite fmap_cons. split.
      * apply NoDup_cons. split; [|done]. rewrite Hiff. set_solver.
      * intros id. rewrite elem_of_cons, Hiff.
        destruct (decide (id = trade_vt_tradeid t)); set_solver.
Qed.

(** One trade event: a repeated id changes nothing; a new id is recorded and
    the fill is added to the position of the owner of its order id. *)
Lemma process_trade_event_step trade e self s i :
  objects e !! self = Some s →
  let e' := process_trade_event trade e in
  orderid_strategy_map e' = orderid_strategy_map e
  ∧ is_Some (objects e' !! self)
  ∧ (if decide (trade_vt_tradeid trade ∈ vt_tradeids e)
     then e' = e
     else vt_tradeids e' = vt_tradeids e ∪ {[trade_vt_tradeid trade]}
          ∧ get_pos self i e' =
            get_pos self i e +
            (if decide (trade_vt_symbol trade = i
                        ∧ orderid_strategy_map e !! trade_vt_orderid trade = Some self)
             then trade_signed_volume trade else 0)).
Proof.
  intros Hs e'. subst e'. unfold process_trade_event.
  case_decide as Hseen.
  { rewrite bool_decide_eq_true_2 by done. eauto. }
  rewrite bool_decide_eq_false_2 by done. cbn [orderid_strategy_map set_vt_tradeids].
  destruct (orderid_strategy_map e !! trade_vt_orderid trade) as [r|] eqn:Howner.
  - unfold call_strategy_func, method1, total, update_trade, upd_strategy, get_pos, read.
    simpl. rewrite !lookup_alter. repeat split.
    + case_decide; subst; rewrite ?Hs; simpl; eauto.
    + rewrite Hs. destruct (decide (r = self)) as [->|Hr].
      * rewrite Hs. simpl. unfold trade_signed_volume.
        destruct (decide (_ ∧ _)) as [[<- _]|Hno].
        -- destruct (trade_direction trade); simpl;
             rewrite lookup_insert_eq; simpl; lia.
        -- assert (trade_vt_symbol trade ≠ i) by tauto.
           destruct (trade_direction trade); simpl;
             rewrite lookup_insert_ne by done; lia.
      * destruct (decide (_ ∧ _)) as [[_ ?]|Hno]; [congruence|lia].
  - simpl. repeat split; [eauto|].
    unfold get_pos, read. simpl. rewrite Hs.
    destruct (decide (_ ∧ _)) as [[_ ?]|Hno]; [congruence|lia].
Qed.

Lemma vt_tradeids_replay trades e :
  vt_tradeids e ⊆ vt_tradeids (replay trades e)
  ∧ ∀ t, t ∈ trades → trade_vt_tradeid t ∈ vt_tradeids (replay trades e).
Proof.
  revert e. induction trades as [|t rest IH]; intros e.
  - split; [done|]. intros t Ht. by apply elem_of_nil in Ht.
  - change (replay (t :: rest) e) with (replay rest (process_trade_event t e)).
    destruct (IH (process_trade_event t e)) as [Hsub Hin].
    assert (Hstep : vt_tradeids e ∪ {[trade_vt_tradeid t]}
                    ⊆ vt_tradeids (process_trade_event t e)).
    { unfold process_trade_event. case_bool_decide as Hseen; [set_solver|].
      destruct (orderid_strategy_map _ !! _); simpl; set_solver. }
    split; [set_solver|].
    intros t' Ht'. apply elem_of_cons in Ht' as [->|Ht']; [set_solver|by apply Hin].
Qed.

(** C1. After any sequence of trade events, the position of a strategy in
    contract [i] is its position before plus the sum of the signed fill
    volumes ([+volume] for [LONG], [-volume] for [SHORT]) over the first
    deliveries of the trade ids not seen before, for the fills in [i] whose
    order id the engine maps to that strategy.  Those deliveries have
    pairwise distinct trade ids, one for each new id of the sequence, and
    delivering any event of the sequence once more changes nothing. *)
Theorem replay_position_is_sum_of_fills trades e self s i :
  objects e !! self = Some s →
  get_pos self i (replay trades e) =
    get_pos self i e
    + filled_volume (orderid_strategy_map e) (vt_tradeids e) self i trades
  ∧ NoDup (trade_vt_tradeid <$> first_deliveries (vt_tradeids e) trades)
  ∧ (∀ id, id ∈ trade_vt_tradeid <$> first_deliveries (vt_tradeids e) trades
           ↔ id ∈ trade_vt_tradeid <$> trades ∧ id ∉ vt_tradeids e)
  ∧ (∀ trade, trade ∈ trades →
       process_trade_event trade (replay trades e) = replay trades e).
Proof.
  intros Hs. split; [|split; [|split]].
  - revert e s Hs. induction trades as [|t rest IH]; intros e s Hs.
    + unfold filled_volume. simpl. lia.
    + change (replay (t :: rest) e) with (replay rest (process_trade_event t e)).
      destruct (process_trade_event_step t e self s i Hs) as (Hmap & [s' Hs'] & Hstep).
      rewrite (IH _ s' Hs'), Hmap. unfold filled_volume. simpl.
      case_decide as Hseen.
      * by rewrite Hstep.
      * destruct Hstep as [-> ->]. rewrite filter_cons.
        case_decide; simpl; lia.
  - apply first_deliveries_ids.
  - apply first_deliveries_ids.
  - intros t Ht. unfold process_trade_event at 1.
    rewrite bool_decide_eq_true_2; [done|].
    by apply vt_tradeids_replay.
Qed.

(** *** Historical bars *)

Lemma foldl_invariant {A B} (P : A → Prop) (f : A → B → A) (l : list B) a :
  P a → (∀ a x, x ∈ l → P a → P (f a x)) → P (foldl f a l).
Proof.
  revert a. induction l as [|x l IH]; intros a Ha Hstep; [done|].
  simpl. apply IH.
  - apply Hstep; [apply elem_of_cons; by left | done].
  - intros a' y Hy. apply Hstep. apply elem_of_cons. by right.
Qed.

Lemma fill_bar_fill_bar old dt dt' :
  fill_bar (fill_bar old dt) dt' = fill_bar old dt'.
Proof. reflexivity. Qed.














(** *** Life cycle *)

Lemma objects_write_log msg o e : objects (write_log msg o e) = objects e.
Proof. reflexivity. Qed.

Lemma objects_put_strategy_event strategy e :
  objects (put_strategy_event strategy e) = objects e.
Proof. unfold put_strategy_event. by destruct (objects e !! strategy). Qed.




(** Once [trading] is off, [cancel_all] reaches no collaborator: every
    [cancel_order] stops at the test of the flag. *)
Lemma cancel_all_not_trading self e :
  read self trading false e = false → cancel_all env self e = e.
Proof.
  intros Hoff. unfold cancel_all.
  generalize (elements (read self active_orderids ∅ e)). intros ids.
  induction ids as [|i ids IH]; [done|].
  simpl. unfold cancel_order at 2. by rewrite Hoff.
Qed.

Lemma read_trading_after_stop strategy e :
  read strategy trading false (upd_strategy strategy (set_trading false) e) = false.
Proof.
  unfold read, upd_strategy. simpl. rewrite lookup_alter_eq.
  by destruct (objects e !! strategy).
Qed.

(** [stop_strategy] asks for no cancellation of its own: the cancel requests
    it leaves behind are those of the [on_stop] hook. *)
Lemma sent_cancels_snoc l x :
  sent_cancels (l ++ [x]) =
  sent_cancels l ++ match x with ECancelOrder req gw => [(req, gw)] | _ => [] end.
Proof.
  unfold sent_cancels. rewrite omap_app. by destruct x.
Qed.

Lemma sent_cancels_put_strategy_event strategy e :
  sent_cancels (effects (put_strategy_event strategy e)) = sent_cancels (effects e).
Proof.
  unfold put_strategy_event. destruct (objects e !! strategy); [|done].
  cbn [emit effects]. by rewrite sent_cancels_snoc, app_nil_r.
Qed.

Lemma sent_cancels_sync_strategy_data strategy e :
  sent_cancels (effects (sync_strategy_data strategy e)) = sent_cancels (effects e).
Proof.
  unfold sync_strategy_data. destruct (objects e !! strategy); [|done].
  cbn [emit effects set_strategy_data]. by rewrite sent_cancels_snoc, app_nil_r.
Qed.

Lemma stop_strategy_cancels_nothing name strategy e :
  strategies e !! name = Some strategy →
  read strategy trading false e = true →
  sent_cancels (effects (stop_strategy env hooks name e).1) =
  sent_cancels (effects (call_strategy_func (P:=unit) strategy
                           (method0 (on_stop hooks strategy)) None e)).
Proof.
  intros Hname Htrading. unfold stop_strategy. rewrite Hname, Htrading.
  cbv zeta. cbn [negb fst].
  rewrite cancel_all_not_trading by apply read_trading_after_stop.
  by rewrite sent_cancels_put_strategy_event, sent_cancels_sync_strategy_data.
Qed.

(** * Further properties of the engine and the template *)

(** *** Order ids *)

Lemma submit_step strategy gateway_name acc req :
  let acc' := submit env strategy gateway_name acc req in
  (acc'.2 = acc.2 ∧ orderid_strategy_map acc'.1 = orderid_strategy_map acc.1)
  ∨ (∃ id, id ≠ "" ∧ acc'.2 = acc.2 ++ [id]
           ∧ orderid_strategy_map acc'.1 = <[id := strategy]> (orderid_strategy_map acc.1)).
Proof.
  destruct acc as [e ids]. unfold submit.
  destruct (truthy (main_send_order env (effects e) req gateway_name)) eqn:Hid.
  - right. exists (main_send_order env (effects e) req gateway_name).
    split; [|done]. intros Hempty.
    unfold truthy, string_truthy in Hid. rewrite Hempty in Hid. done.
  - left. done.
Qed.

Lemma submit_loop_ids strategy gateway_name req_list acc :
  ∃ new,
    (foldl (submit env strategy gateway_name) acc req_list).2 = acc.2 ++ new
    ∧ (length new ≤ length req_list)%nat
    ∧ Forall (λ id, id ≠ "") new
    ∧ ∀ id, orderid_strategy_map (foldl (submit env strategy gateway_name) acc req_list).1 !! id
            = if decide (id ∈ new) then Some strategy
              else orderid_strategy_map acc.1 !! id.
Proof.
  revert acc. induction req_list as [|req rest IH]; intros acc.
  - exists []. split; [by rewrite app_nil_r|]. split; [done|]. split; [constructor|].
    intros id. cbn [foldl]. rewrite decide_False by apply not_elem_of_nil. done.
  - cbn [foldl].
    destruct (IH (submit env strategy gateway_name acc req))
      as (new & Hids & Hlen & Hne & Hmap).
    destruct (submit_step strategy gateway_name acc req)
      as [[Hsame Hmap1]|(id1 & Hid1 & Hsnoc & Hmap1)].
    + exists new. split; [by rewrite Hids, Hsame|]. split; [simpl; lia|]. split; [done|].
      intros id. by rewrite Hmap, Hmap1.
    + exists (id1 :: new). split; [|split; [|split]].
      * rewrite Hids, Hsnoc. by rewrite <- app_assoc.
      * simpl. lia.
      * by constructor.
      * intros id. rewrite Hmap, Hmap1.
        destruct (decide (id ∈ new)) as [Hin|Hnin].
        -- rewrite decide_True by (apply elem_of_cons; by right). done.
        -- destruct (decide (id = id1)) as [->|Hneq].
           ++ rewrite lookup_insert_eq.
              rewrite decide_True by (apply elem_of_cons; by left). done.
           ++ rewrite lookup_insert_ne by done.
              rewrite decide_False; [done|]. intros [?|?]%elem_of_cons; done.
Qed.

Lemma engine_send_order_ids strategy vt_symbol direction offset price volume lock net e :
  let r := StrategyEngine_send_order env strategy vt_symbol direction offset price
             volume lock net e in
  Forall (λ id, id ≠ "") r.2
  ∧ (∀ id, orderid_strategy_map r.1 !! id =
           if decide (id ∈ r.2) then Some strategy else orderid_strategy_map e !! id)
  ∧ (get_contract env vt_symbol = None → r.2 = []).
Proof.
  unfold StrategyEngine_send_order.
  destruct (get_contract env vt_symbol) as [contract|].
  - cbv zeta.
    match goal with |- context [foldl ?f (e, []) ?l] =>
      destruct (submit_loop_ids strategy (contract_gateway_name contract) l (e, []))
        as (new & Hids & _ & Hne & Hmap)
    end.
    simpl in Hids. rewrite Hids. split; [done|]. split; [|done].
    intros id. rewrite Hmap. done.
  - cbv zeta. cbn [fst snd]. split; [constructor|]. split; [|done].
    intros id. rewrite decide_False by apply not_elem_of_nil. done.
Qed.

Lemma foldl_add_ids (ids : list string) (active : gset string) :
  foldl (λ ids vt_orderid, ids ∪ {[vt_orderid]}) active ids = active ∪ list_to_set ids.
Proof.
  revert active. induction ids as [|i ids IH]; intros active; simpl.
  - set_solver.
  - rewrite IH. set_solver.
Qed.

(** X1. A trading strategy that sends an order gets back only ids that the
    gateway gave (none is empty); afterwards the engine maps each of them to
    that strategy and to no other, maps every other id as before, and the
    strategy has them in [active_orderids] beside the ids that were active
    already; no other strategy object changes.  If every active id was mapped
    to the strategy before, this is so afterwards.  Without contract no id is
    returned. *)
Theorem send_order_registers_ids self vt_symbol direction offset price volume
    lock net e s :
  objects e !! self = Some s → trading s = true →
  let r := send_order env self vt_symbol direction offset price volume lock net e in
  Forall (λ id, id ≠ "") r.2
  ∧ (∀ id, orderid_strategy_map r.1 !! id =
           if decide (id ∈ r.2) then Some self else orderid_strategy_map e !! id)
  ∧ objects r.1 !! self =
      Some (set_active_orderids (active_orderids s ∪ list_to_set r.2) s)
  ∧ (∀ r', r' ≠ self → objects r.1 !! r' = objects e !! r')
  ∧ ((∀ id, id ∈ active_orderids s → orderid_strategy_map e !! id = Some self) →
     ∀ id, id ∈ read self active_orderids ∅ r.1 →
           orderid_strategy_map r.1 !! id = Some self)
  ∧ (get_contract env vt_symbol = None → r.2 = []).
Proof.
  intros Hs Htrading. unfold send_order.
  rewrite (read_lookup _ _ _ _ _ Hs), Htrading.
  pose proof (engine_send_order_ids self vt_symbol direction offset price volume
                lock net e) as (Hne & Hmap & Hnone).
  pose proof (objects_engine_send_order self vt_symbol direction offset price
                volume lock net e) as Hobj.
  destruct (StrategyEngine_send_order env self vt_symbol direction offset price
              volume lock net e) as [e1 ids].
  cbn [fst snd] in *.
  assert (Hself : objects (upd_strategy self
             (λ s0, set_active_orderids
                      (foldl (λ ids0 vt_orderid, ids0 ∪ {[vt_orderid]})
                             (active_orderids s0) ids) s0) e1) !! self
           = Some (set_active_orderids (active_orderids s ∪ list_to_set ids) s)).
  { unfold upd_strategy. simpl. rewrite lookup_alter_eq, Hobj, Hs. simpl.
    by rewrite foldl_add_ids. }
  split; [done|]. split; [done|]. split; [done|]. split; [|split; [|done]].
  - intros r' Hr'. unfold upd_strategy. simpl.
    rewrite lookup_alter_ne by done. by rewrite Hobj.
  - intros Hindexed id. unfold read. rewrite Hself. simpl.
    intros [Hold|Hnew]%elem_of_union.
    + change (orderid_strategy_map e1 !! id = Some self). rewrite Hmap.
      case_decide; [done|]. by apply Hindexed.
    + change (orderid_strategy_map e1 !! id = Some self). rewrite Hmap.
      apply elem_of_list_to_set in Hnew. by rewrite decide_True.
Qed.

(** X2. An order event for an id that the engine maps to no strategy changes
    nothing.  Otherwise the owner records the order under its id, and the id
    leaves [active_orderids] exactly when the order is no longer active;
    other order records, positions, targets, other strategies, the index and
    the collaborators are untouched. *)
Theorem order_event_updates_owner order e :
  let e' := process_order_event order e in
  let id := order_vt_orderid order in
  (orderid_strategy_map e !! id = None → e' = e)
  ∧ (∀ strategy s,
       orderid_strategy_map e !! id = Some strategy →
       objects e !! strategy = Some s →
       get_order_of strategy id e' = Some order
       ∧ read strategy active_orderids ∅ e' =
           (if order_is_active order then active_orderids s
            else active_orderids s ∖ {[id]})
       ∧ (∀ id', id' ≠ id → get_order_of strategy id' e' = orders s !! id')
       ∧ read strategy pos_data ∅ e' = pos_data s
       ∧ read strategy target_data ∅ e' = target_data s
       ∧ (∀ r, r ≠ strategy → objects e' !! r = objects e !! r)
       ∧ orderid_strategy_map e' = orderid_strategy_map e
       ∧ effects e' = effects e).
Proof.
  intros e' id. subst e' id. unfold process_order_event. split.
  - by intros ->.
  - intros strategy s -> Hs.
    unfold call_strategy_func, method1, total, update_order, get_order_of, read,
      upd_strategy.
    cbn [truthy option_truthy OrderData_truthy objects set_objects
         orderid_strategy_map effects].
    rewrite lookup_alter_eq, Hs. cbn [fmap option_fmap option_map].
    destruct (order_is_active order) eqn:Hactive; cbn [negb andb].
    + repeat split; cbn.
      * by rewrite lookup_insert_eq.
      * intros id' Hid'. by rewrite lookup_insert_ne.
      * intros r Hr. by rewrite lookup_alter_ne.
    + case_bool_decide as Hin; repeat split; cbn.
      * by rewrite lookup_insert_eq.
      * intros id' Hid'. by rewrite lookup_insert_ne.
      * intros r Hr. by rewrite lookup_alter_ne.
      * by rewrite lookup_insert_eq.
      * set_solver.
      * intros id' Hid'. by rewrite lookup_insert_ne.
      * intros r Hr. by rewrite lookup_alter_ne.
Qed.

(** *** Cancellation *)

Lemma cancel_loop_trading self s ids e :
  objects e !! self = Some s → trading s = true →
  let e' := foldl (λ e vt_orderid, cancel_order env self vt_orderid e) e ids in
  sent_cancels (effects e') =
    sent_cancels (effects e) ++
    omap (λ vt_orderid,
            (λ order, (create_cancel_request order, order_gateway_name order))
              <$> get_order env vt_orderid) ids
  ∧ log_messages (effects e') =
    log_messages (effects e) ++
    omap (λ vt_orderid,
            match get_order env vt_orderid with
            | Some _ => None
            | None => Some (strategy_name s +:+ ": " +:+
                            ("Cancellation failed, commission not found " +:+ vt_orderid))
            end) ids
  ∧ length (effects e') = (length (effects e) + length ids)%nat.
Proof.
  intros Hs Htrading. revert e Hs.
  induction ids as [|i ids IH]; intros e Hs.
  - cbn. by rewrite !app_nil_r, Nat.add_0_r.
  - cbn [foldl]. cbv zeta.
    assert (Hs' : objects (cancel_order env self i e) !! self = Some s)
      by by rewrite objects_cancel_order.
    destruct (IH _ Hs') as (-> & -> & ->).
    unfold cancel_order, StrategyEngine_cancel_order, write_log.
    rewrite !(read_lookup _ _ _ _ _ Hs), Htrading. cbn [omap].
    destruct (get_order env i) as [order|] eqn:Horder;
      cbn [emit effects]; rewrite sent_cancels_snoc, length_app;
      unfold log_messages; rewrite omap_app;
      cbn [omap list_omap length]; rewrite !Horder;
      cbn [fmap option_fmap option_map];
      rewrite ?app_nil_r, <- ?app_assoc; repeat split; try done; lia.
Qed.

(** X3. [cancel_all] of a trading strategy sends one cancel request for every
    active order id that the main engine knows, built from the order and
    sent to its gateway, and logs a failure for every other active id; each
    active id costs exactly one call.  It sends no order and changes no
    strategy object: the ids stay in [active_orderids] until an order event
    reports them inactive. *)
Theorem cancel_all_trading_requests self e s :
  objects e !! self = Some s → trading s = true →
  let e' := cancel_all env self e in
  let ids := elements (active_orderids s) in
  sent_cancels (effects e') =
    sent_cancels (effects e) ++
    omap (λ vt_orderid,
            (λ order, (create_cancel_request order, order_gateway_name order))
              <$> get_order env vt_orderid) ids
  ∧ log_messages (effects e') =
    log_messages (effects e) ++
    omap (λ vt_orderid,
            match get_order env vt_orderid with
            | Some _ => None
            | None => Some (strategy_name s +:+ ": " +:+
                            ("Cancellation failed, commission not found " +:+ vt_orderid))
            end) ids
  ∧ length (effects e') = (length (effects e) + size (active_orderids s))%nat
  ∧ sent_orders (effects e') = sent_orders (effects e)
  ∧ objects e' = objects e
  ∧ orderid_strategy_map e' = orderid_strategy_map e.
Proof.
  intros Hs Htrading e' ids. subst e' ids. unfold cancel_all.
  rewrite (read_lookup _ _ _ _ _ Hs).
  destruct (cancel_loop_trading self s (elements (active_orderids s)) e Hs Htrading)
    as (H1 & H2 & H3).
  cbv zeta in H1, H2, H3.
  split; [exact H1|]. split; [exact H2|]. split; [exact H3|].
  pose proof (effects_cancel_all self e) as [Hsent Hmap].
  pose proof (objects_cancel_all self e) as Hobj.
  unfold cancel_all in Hsent, Hmap, Hobj.
  rewrite (read_lookup _ _ _ _ _ Hs) in Hsent, Hmap, Hobj.
  done.
Qed.

(** *** The pass of [rebalance_portfolio] as a whole *)

Lemma read_place_any {A} (g : Strategy → A) dflt r self e l :
  (∀ s a, g (set_active_orderids a s) = g s) →
  read r g dflt (place env self e l) = read r g dflt e.
Proof.
  intros Hg. unfold place, send_order.
  destruct (read self trading false e); [|done].
  pose proof (objects_engine_send_order self (leg_symbol l) (leg_direction l)
                (leg_offset l) (leg_price l) (leg_volume l) false false e) as Hobj.
  destruct (StrategyEngine_send_order _ _ _ _ _ _ _ _ _ _) as [e1 ids].
  simpl in *. rewrite read_upd by (intros; apply Hg).
  by apply read_same_objects.
Qed.

Lemma read_get_target_any {A} (g : Strategy → A) dflt r self vt_symbol e :
  (∀ s d, g (set_target_data d s) = g s) →
  read r g dflt (get_target self vt_symbol e).1 = read r g dflt e.
Proof. intros Hg. unfold get_target. cbn [fst]. by apply read_upd. Qed.

Lemma target_read_get_target r self vt_symbol k e :
  (get_target r k (get_target self vt_symbol e).1).2 = (get_target r k e).2.
Proof.
  destruct (decide (r = self)) as [->|Hne].
  - apply same_ledger_get_target.
  - unfold get_target. cbn [fst snd]. unfold read, upd_strategy. cbn [objects set_objects].
    by rewrite lookup_alter_ne.
Qed.

Lemma rebalance_steps_frame {A} (g : Strategy → A) dflt r self e0
    (items : list (string * BarData)) e :
  (∀ s a, g (set_active_orderids a s) = g s) →
  (∀ s d, g (set_target_data d s) = g s) →
  read r g dflt
    (foldl (λ e' item,
              foldl (place env self) (get_target self item.1 e').1
                    (symbol_legs hooks self e0 item)) e items)
  = read r g dflt e.
Proof.
  intros Hactive Htarget. revert e.
  induction items as [|item items IH]; intros e; [done|].
  cbn [foldl]. rewrite IH.
  generalize (symbol_legs hooks self e0 item). intros legs.
  transitivity (read r g dflt (get_target self item.1 e).1);
    [|by apply read_get_target_any].
  generalize (get_target self item.1 e).1. intros e1. revert e1.
  induction legs as [|l legs IHl]; intros e1; [done|].
  cbn [foldl]. rewrite IHl. by apply read_place_any.
Qed.

Lemma rebalance_steps_targets r self e0 (items : list (string * BarData)) e k :
  (get_target r k
     (foldl (λ e' item,
               foldl (place env self) (get_target self item.1 e').1
                     (symbol_legs hooks self e0 item)) e items)).2
  = (get_target r k e).2.
Proof.
  revert e. induction items as [|item items IH]; intros e; [done|].
  cbn [foldl]. rewrite IH.
  generalize (symbol_legs hooks self e0 item). intros legs.
  transitivity ((get_target r k (get_target self item.1 e).1).2);
    [|apply target_read_get_target].
  generalize (get_target self item.1 e).1. intros e1. revert e1.
  induction legs as [|l legs IHl]; intros e1; [done|].
  cbn [foldl]. rewrite IHl. cbn [get_target snd]. by apply read_place_any.
Qed.

(** X4. A pass of [rebalance_portfolio] moves no position and no target, of
    the strategy that runs it or of any other: [pos_data] of every strategy
    is as before, every target reads as before, and the flags [inited] and
    [trading] are as before.  Positions change by trade events only. *)
Theorem rebalance_portfolio_keeps_ledgers self bars e r :
  let e' := rebalance_portfolio env hooks self bars e in
  read r pos_data ∅ e' = read r pos_data ∅ e
  ∧ (∀ vt_symbol, get_pos r vt_symbol e' = get_pos r vt_symbol e)
  ∧ (∀ vt_symbol, (get_target r vt_symbol e').2 = (get_target r vt_symbol e).2)
  ∧ read r inited false e' = read r inited false e
  ∧ read r trading false e' = read r trading false e.
Proof.
  intros e'. subst e'. unfold rebalance_portfolio.
  rewrite (rebalance_loop_places self e) by apply same_ledger_cancel_all.
  split; [|split; [|split; [|split]]].
  - rewrite rebalance_steps_frame by done.
    apply read_same_objects, objects_cancel_all.
  - intros k. unfold get_pos. rewrite rebalance_steps_frame by done.
    apply read_same_objects, objects_cancel_all.
  - intros k. rewrite rebalance_steps_targets. cbn [get_target snd].
    apply read_same_objects, objects_cancel_all.
  - rewrite rebalance_steps_frame by done.
    apply read_same_objects, objects_cancel_all.
  - rewrite rebalance_steps_frame by done.
    apply read_same_objects, objects_cancel_all.
Qed.

Lemma place_not_trading self e l :
  read self trading false e = false → place env self e l = e.
Proof. intros Hoff. unfold place, send_order. by rewrite Hoff. Qed.

Lemma places_not_trading self e legs :
  read self trading false e = false → foldl (place env self) e legs = e.
Proof.
  intros Hoff. induction legs as [|l legs IH]; [done|].
  cbn [foldl]. by rewrite place_not_trading.
Qed.

(** X5. While [trading] is off, as it is during the replay of history in
    [on_init], a pass of [rebalance_portfolio] reaches no collaborator: no
    order, no cancellation, no log message; the index of order ids and the
    active order ids are unchanged, whatever the positions and targets. *)
Theorem rebalance_portfolio_not_trading_is_silent self bars e :
  trading <$> objects e !! self = Some false →
  let e' := rebalance_portfolio env hooks self bars e in
  effects e' = effects e
  ∧ orderid_strategy_map e' = orderid_strategy_map e
  ∧ read self active_orderids ∅ e' = read self active_orderids ∅ e
  ∧ vt_tradeids e' = vt_tradeids e.
Proof.
  intros Hoff e'. subst e'.
  assert (Hread : read self trading false e = false) by by apply read_fmap.
  unfold rebalance_portfolio.
  rewrite (rebalance_loop_places self e) by apply same_ledger_cancel_all.
  rewrite cancel_all_not_trading by done.
  generalize (map_to_list bars). intros items.
  assert (Hgen : ∀ e1, read self trading false e1 = false →
    let e2 := foldl (λ e' item,
                       foldl (place env self) (get_target self item.1 e').1
                             (symbol_legs hooks self e item)) e1 items in
    effects e2 = effects e1
    ∧ orderid_strategy_map e2 = orderid_strategy_map e1
    ∧ read self active_orderids ∅ e2 = read self active_orderids ∅ e1
    ∧ vt_tradeids e2 = vt_tradeids e1).
  { induction items as [|item items IH]; intros e1 Hoff1; [done|].
    cbn [foldl]. cbv zeta.
    assert (Hoff2 : read self trading false (get_target self item.1 e1).1 = false)
      by by rewrite read_get_target_any.
    rewrite places_not_trading by done.
    destruct (IH _ Hoff2) as (-> & -> & -> & ->).
    repeat split. by apply read_get_target_any. }
  by apply Hgen.
Qed.

(** *** Trade events and the other parts of the state *)

Lemma process_trade_event_frame trade e :
  let e' := process_trade_event trade e in
  vt_tradeids e' = vt_tradeids e ∪ {[trade_vt_tradeid trade]}
  ∧ orderid_strategy_map e' = orderid_strategy_map e
  ∧ effects e' = effects e
  ∧ strategies e' = strategies e
  ∧ symbol_strategy_map e' = symbol_strategy_map e
  ∧ (∀ A (g : Strategy → A) dflt r,
       (∀ s d, g (set_pos_data d s) = g s) → read r g dflt e' = read r g dflt e)
  ∧ (∀ r k,
       ¬ (orderid_strategy_map e !! trade_vt_orderid trade = Some r
          ∧ trade_vt_symbol trade = k) →
       get_pos r k e' = get_pos r k e).
Proof.
  intros e'. subst e'. unfold process_trade_event.
  case_bool_decide as Hseen.
  { repeat split; try done. set_solver. }
  cbn [orderid_strategy_map set_vt_tradeids].
  destruct (orderid_strategy_map e !! trade_vt_orderid trade) as [owner|] eqn:Howner.
  - unfold call_strategy_func, method1, total, update_trade.
    cbn [truthy option_truthy TradeData_truthy].
    repeat split.
    + intros A g dflt r Hg. rewrite read_upd; [done|].
      intros s. by case_decide.
    + intros r k Hnot. unfold get_pos, read, upd_strategy.
      cbn [objects set_objects set_vt_tradeids].
      rewrite lookup_alter. case_decide as Hr; [subst owner|done].
      destruct (objects e !! r) as [s|]; [|done].
      cbn [fmap option_fmap option_map].
      assert (trade_vt_symbol trade ≠ k) by (intros Heq; by apply Hnot).
      case_decide; cbn [pos_data set_pos_data]; by rewrite lookup_insert_ne.
  - repeat split.
Qed.

(** X6. After any sequence of trade events the set of seen trade ids is the
    set before together with the ids of the sequence (it only grows, and an
    id is recorded even when its order belongs to no strategy).  The events
    reach no collaborator and change no index of the engine and, in the
    strategy objects, no target, no order record and no flag; the position
    of a strategy in a contract is unchanged unless some event of the
    sequence is a fill in that contract for an order id mapped to that
    strategy.  Nothing is said of [strategy_data], which in the source holds
    the position dictionaries themselves. *)
Theorem replay_changes_positions_only trades e :
  let e' := replay trades e in
  vt_tradeids e' = vt_tradeids e ∪ list_to_set (trade_vt_tradeid <$> trades)
  ∧ orderid_strategy_map e' = orderid_strategy_map e
  ∧ effects e' = effects e
  ∧ strategies e' = strategies e
  ∧ symbol_strategy_map e' = symbol_strategy_map e
  ∧ (∀ r, read r target_data ∅ e' = read r target_data ∅ e
          ∧ read r orders ∅ e' = read r orders ∅ e
          ∧ read r active_orderids ∅ e' = read r active_orderids ∅ e
          ∧ read r inited false e' = read r inited false e
          ∧ read r trading false e' = read r trading false e)
  ∧ (∀ r k,
       (∀ trade, trade ∈ trades →
          ¬ (orderid_strategy_map e !! trade_vt_orderid trade = Some r
             ∧ trade_vt_symbol trade = k)) →
       get_pos r k e' = get_pos r k e).
Proof.
  revert e. induction trades as [|t rest IH]; intros e.
  - cbn. repeat split; try done. set_solver.
  - change (replay (t :: rest) e) with (replay rest (process_trade_event t e)).
    cbv zeta. specialize (IH (process_trade_event t e)). cbv zeta in IH.
    destruct IH as (-> & -> & -> & -> & -> & Hreads & Hpos).
    destruct (process_trade_event_frame t e)
      as (-> & Hmap & -> & -> & -> & Hreads1 & Hpos1).
    split; [rewrite fmap_cons; set_solver|].
    split; [done|]. split; [done|]. split; [done|]. split; [done|].
    split.
    + intros r. destruct (Hreads r) as (-> & -> & -> & -> & ->).
      repeat split; by apply Hreads1.
    + intros r k Hnone. rewrite Hpos.
      * apply Hpos1. apply Hnone. apply elem_of_cons. by left.
      * intros trade Hin. rewrite Hmap. apply Hnone. apply elem_of_cons. by right.
Qed.

(** *** From a pass to the target *)

Lemma get_pos_replay trades e self s i :
  objects e !! self = Some s →
  get_pos self i (replay trades e) =
  get_pos self i e + filled_volume (orderid_strategy_map e) (vt_tradeids e) self i trades.
Proof.
  revert e s. induction trades as [|t rest IH]; intros e s Hs.
  - unfold filled_volume. simpl. lia.
  - change (replay (t :: rest) e) with (replay rest (process_trade_event t e)).
    destruct (process_trade_event_step t e self s i Hs) as (Hmap & [s' Hs'] & Hstep).
    rewrite (IH _ s' Hs'), Hmap. unfold filled_volume. simpl.
    case_decide as Hseen.
    + by rewrite Hstep.
    + destruct Hstep as [-> ->]. rewrite filter_cons.
      case_decide; simpl; lia.
Qed.

Lemma first_deliveries_fresh seen trades :
  NoDup (trade_vt_tradeid <$> trades) →
  (∀ trade, trade ∈ trades → trade_vt_tradeid trade ∉ seen) →
  first_deliveries seen trades = trades.
Proof.
  revert seen. induction trades as [|t rest IH]; intros seen Hnd Hfresh; [done|].
  rewrite fmap_cons in Hnd. apply NoDup_cons in Hnd as [Ht Hnd].
  cbn [first_deliveries].
  rewrite decide_False by (apply Hfresh, elem_of_cons; by left).
  f_equal. apply IH; [done|].
  intros trade Hin [Hseen|Hsame%elem_of_singleton]%elem_of_union.
  - apply (Hfresh trade); [apply elem_of_cons; by right|done].
  - apply Ht. rewrite <- Hsame. apply list_elem_of_fmap. by exists trade.
Qed.

Lemma vt_tradeids_submit_loop strategy gateway_name req_list acc :
  vt_tradeids (foldl (submit env strategy gateway_name) acc req_list).1 = vt_tradeids acc.1.
Proof.
  revert acc. induction req_list as [|req rest IH]; intros [e ids]; [done|].
  cbn [foldl]. rewrite IH. unfold submit.
  by destruct (truthy (main_send_order env (effects e) req gateway_name)).
Qed.

Lemma vt_tradeids_place self e l : vt_tradeids (place env self e l) = vt_tradeids e.
Proof.
  unfold place, send_order.
  destruct (read self trading false e); [|done].
  unfold StrategyEngine_send_order.
  destruct (get_contract env (leg_symbol l)); [|done].
  cbv zeta.
  match goal with |- context [foldl ?f (e, []) ?reqs] =>
    pose proof (vt_tradeids_submit_loop self (contract_gateway_name c) reqs (e, [])) as H;
    destruct (foldl f (e, []) reqs) as [e1 ids]
  end.
  exact H.
Qed.

Lemma vt_tradeids_cancel_all self e : vt_tradeids (cancel_all env self e) = vt_tradeids e.
Proof.
  unfold cancel_all. generalize (elements (read self active_orderids ∅ e)).
  intros ids. revert e. induction ids as [|i ids IH]; intros e; [done|].
  cbn [foldl]. rewrite IH. unfold cancel_order, StrategyEngine_cancel_order.
  destruct (read self trading false e); [|done]. by destruct (get_order env i).
Qed.

Lemma vt_tradeids_rebalance_steps self e0 (items : list (string * BarData)) e :
  vt_tradeids
    (foldl (λ e' item,
              foldl (place env self) (get_target self item.1 e').1
                    (symbol_legs hooks self e0 item)) e items)
  = vt_tradeids e.
Proof.
  revert e. induction items as [|item items IH]; intros e; [done|].
  cbn [foldl]. rewrite IH.
  generalize (symbol_legs hooks self e0 item). intros legs.
  transitivity (vt_tradeids (get_target self item.1 e).1); [|done].
  generalize (get_target self item.1 e).1. intros e1. revert e1.
  induction legs as [|l legs IHl]; intros e1; [done|].
  cbn [foldl]. rewrite IHl. apply vt_tradeids_place.
Qed.

Lemma symbol_legs_direction self e item :
  Forall (λ l, leg_direction l ≠ NET) (symbol_legs hooks self e item).
Proof.
  destruct item as [k bar]. unfold symbol_legs.
  repeat case_decide;
    repeat match goal with |- context [truthy ?z] => destruct (truthy z) end;
    simpl; repeat constructor; done.
Qed.

Lemma rebalance_legs_direction self bars e :
  Forall (λ l, leg_direction l ≠ NET) (rebalance_legs hooks self bars e).
Proof.
  unfold rebalance_legs. generalize (map_to_list bars). intros items.
  induction items as [|item items IH]; [constructor|].
  change (mjoin (symbol_legs hooks self e <$> item :: items))
    with (symbol_legs hooks self e item ++ mjoin (symbol_legs hooks self e <$> items)).
  apply Forall_app. split; [apply symbol_legs_direction|done].
Qed.

(** The fills of a list of legs, each leg filled once and in full by a trade
    of an order of the strategy, add up to the net volume of the legs. *)
Lemma filled_legs_volume (owner : gmap string ref) self i legs trades :
  Forall (λ l, leg_direction l ≠ NET) legs →
  Forall2 (λ l trade,
             trade_vt_symbol trade = leg_symbol l
             ∧ trade_direction trade = leg_direction l
             ∧ trade_volume trade = leg_volume l
             ∧ owner !! trade_vt_orderid trade = Some self) legs trades →
  foldr (λ trade acc, trade_signed_volume trade + acc) 0
    (filter (λ trade, trade_vt_symbol trade = i
                      ∧ owner !! trade_vt_orderid trade = Some self) trades)
  = net_volume (filter (λ l, leg_symbol l = i) legs).
Proof.
  intros Hdir Hfill. induction Hfill as [|l t legs trades (Hsym & Hd & Hv & Ho) _ IH];
    [done|].
  apply Forall_cons in Hdir as [Hl Hdir]. specialize (IH Hdir).
  rewrite !filter_cons.
  destruct (decide (leg_symbol l = i)) as [Hi|Hi].
  - rewrite decide_True by (split; congruence).
    cbn [foldr net_volume]. fold (net_volume (filter (λ l, leg_symbol l = i) legs)).
    rewrite IH. unfold trade_signed_volume, leg_signed_volume. rewrite Hd, Hv.
    by destruct (leg_direction l).
  - rewrite decide_False by (intros [? _]; congruence). exact IH.
Qed.

(** X7. A pass of [rebalance_portfolio] followed by the fills of its legs
    brings the position to the target: when every leg of the pass is filled
    once and in full, by a trade with a new trade id for an order id that
    the engine maps to the strategy, then after these trade events the
    position in every contract of [bars] equals the target it had at the
    start of the pass. *)
Theorem rebalance_then_fills_reach_target self bars e s trades :
  objects e !! self = Some s →
  let e' := rebalance_portfolio env hooks self bars e in
  Forall2 (λ l trade,
             trade_vt_symbol trade = leg_symbol l
             ∧ trade_direction trade = leg_direction l
             ∧ trade_volume trade = leg_volume l
             ∧ orderid_strategy_map e' !! trade_vt_orderid trade = Some self)
          (rebalance_legs hooks self bars e) trades →
  NoDup (trade_vt_tradeid <$> trades) →
  (∀ trade, trade ∈ trades → trade_vt_tradeid trade ∉ vt_tradeids e) →
  ∀ i bar, bars !! i = Some bar →
    get_pos self i (replay trades e') = (get_target self i e).2.
Proof.
  intros Hs e' Hfill Hnd Hfresh i bar Hbar.
  assert (Hsteps : e' = foldl (λ e' item,
                     foldl (place env self) (get_target self item.1 e').1
                           (symbol_legs hooks self e item))
                  (cancel_all env self e) (map_to_list bars)).
  { subst e'. unfold rebalance_portfolio.
    apply rebalance_loop_places, same_ledger_cancel_all. }
  assert (Hlive : is_Some (objects e' !! self)).
  { assert (Hr : read self (λ _, true) false e' = true).
    { rewrite Hsteps, rebalance_steps_frame by done.
      rewrite (read_same_objects _ _ _ e (cancel_all env self e)) by apply objects_cancel_all.
      by rewrite (read_lookup _ _ _ _ _ Hs). }
    unfold read in Hr. destruct (objects e' !! self); [eauto|done]. }
  destruct Hlive as [s' Hs'].
  assert (Hids : vt_tradeids e' = vt_tradeids e).
  { rewrite Hsteps, vt_tradeids_rebalance_steps. apply vt_tradeids_cancel_all. }
  assert (Hpos : get_pos self i e' = get_pos self i e).
  { unfold get_pos. rewrite Hsteps, rebalance_steps_frame by done.
    apply read_same_objects, objects_cancel_all. }
  rewrite (get_pos_replay trades e' self s' i Hs'), Hpos, Hids.
  unfold filled_volume. rewrite first_deliveries_fresh by done.
  rewrite (filled_legs_volume _ self i (rebalance_legs hooks self bars e) trades)
    by (done || apply rebalance_legs_direction).
  unfold rebalance_legs.
  rewrite (filter_legs_of_symbol self e _ i bar);
    [|apply NoDup_fst_map_to_list|by apply elem_of_map_to_list].
  rewrite symbol_legs_specified, net_volume_specified. lia.
Qed.

(** *** Saving and restoring the variables *)

Lemma foldl_insert_lookup {V} (f : string → V) (l : list string) (m : gmap string V) k :
  foldl (λ m name, <[name := f name]> m) m l !! k =
  if decide (k ∈ l) then Some (f k) else m !! k.
Proof.
  revert m. induction l as [|n l IH]; intros m.
  - cbn. rewrite decide_False by apply not_elem_of_nil. done.
  - cbn [foldl]. rewrite IH.
    destruct (decide (k ∈ l)) as [Hin|Hnin].
    + rewrite decide_True by (apply elem_of_cons; by right). done.
    + destruct (decide (k = n)) as [->|Hne].
      * rewrite lookup_insert_eq, decide_True by (apply elem_of_cons; by left). done.
      * rewrite lookup_insert_ne by done.
        rewrite decide_False; [done|]. intros [?|?]%elem_of_cons; done.
Qed.

Lemma get_variables_lookup s name :
  get_variables s !! name =
  if decide (name ∈ variables s) then Some (getattr s name) else None.
Proof.
  unfold get_variables. rewrite (foldl_insert_lookup (getattr s)).
  case_decide; [done|]. apply lookup_empty.
Qed.

Lemma saved_variables_lookup s name :
  saved_variables s !! name =
  if decide (name = "inited" ∨ name = "trading") then None
  else if decide (name ∈ variables s) then Some (getattr s name) else None.
Proof.
  unfold saved_variables.
  destruct (decide (name = "trading")) as [->|Ht].
  { rewrite lookup_delete_eq. by rewrite decide_True by (by right). }
  rewrite lookup_delete_ne by done.
  destruct (decide (name = "inited")) as [->|Hi].
  { rewrite lookup_delete_eq. by rewrite decide_True by (by left). }
  rewrite lookup_delete_ne by done.
  rewrite decide_False by (intros [?|?]; done).
  apply get_variables_lookup.
Qed.

Lemma json_writes_snoc l x :
  json_writes (l ++ [x]) =
  json_writes l ++ match x with ESaveJson _ data => [data] | _ => [] end.
Proof.
  unfold json_writes. rewrite omap_app. by destruct x.
Qed.


Lemma restored_from_nil data dp dt s : restored_from data dp dt [] s s.
Proof.
  unfold restored_from.
  rewrite !(decide_False (P := _ ∈ [])) by apply not_elem_of_nil.
  repeat split. intros name _.
  destruct (data !! name) as [[]|]; try done;
    by rewrite decide_False by apply not_elem_of_nil.
Qed.

Lemma union_union_same (d p : gmap string Z) : d ∪ (d ∪ p) = d ∪ p.
Proof. by rewrite (assoc_L (∪)), (idemp_L (∪)). Qed.

(** One turn of the loop that restores the variables, for data that hold
    dictionaries for the positions and the targets and no flag. *)
Lemma restore_variable_step strategy data dp dt name e s0 :
  data !! "pos_data" = Some (VDict dp) →
  data !! "target_data" = Some (VDict dt) →
  data !! "inited" = None → data !! "trading" = None →
  objects e !! strategy = Some s0 →
  ∃ s1,
    restore_variable strategy data (e, Returned) name
      = (set_objects (<[strategy := s1]> (objects e)) e, Returned)
    ∧ restored_from data dp dt [name] s0 s1.
Proof.
  intros Hpos Htarget Hinited Htrading Hs0.
  assert (Hupd : ∀ f, upd_strategy strategy f e
                      = set_objects (<[strategy := f s0]> (objects e)) e).
  { intros f. unfold upd_strategy. f_equal.
    apply map_eq. intros r.
    destruct (decide (strategy = r)) as [->|Hne].
    - by rewrite lookup_alter_eq, lookup_insert_eq, Hs0.
    - by rewrite lookup_alter_ne, lookup_insert_ne. }
  assert (Hid : e = set_objects (<[strategy := s0]> (objects e)) e).
  { rewrite insert_id by done. by destruct e. }
  assert (Hsingle : ∀ n : string, n ∈ [name] ↔ n = name).
  { intros n. rewrite elem_of_cons. split; [intros [?|?%elem_of_nil]; done|by left]. }
  destruct (decide (name = "pos_data")) as [->|Hnp].
  { unfold restore_variable. rewrite Hpos. rewrite decide_True by done. rewrite Hupd.
    eexists. split; [reflexivity|]. unfold restored_from.
    cbn [pos_data target_data inited trading strategy_name vt_symbols variables
         orders active_orderids attrs set_pos_data].
    rewrite decide_True by (by apply Hsingle).
    rewrite decide_False by (rewrite Hsingle; done).
    repeat split. intros n Hn.
    destruct (data !! n) as [[]|] eqn:Hd; try done;
      rewrite decide_False; try done; rewrite Hsingle; intros ->;
      apply Hn; unfold default_variables; set_solver. }
  destruct (decide (name = "target_data")) as [->|Hnt].
  { unfold restore_variable.
    rewrite Htarget. rewrite decide_False by done. rewrite decide_True by done.
    rewrite Hupd.
    eexists. split; [reflexivity|]. unfold restored_from.
    cbn [pos_data target_data inited trading strategy_name vt_symbols variables
         orders active_orderids attrs set_target_data].
    rewrite decide_False by (rewrite Hsingle; done).
    rewrite decide_True by (by apply Hsingle).
    repeat split. intros n Hn.
    destruct (data !! n) as [[]|] eqn:Hd; try done;
      rewrite decide_False; try done; rewrite Hsingle; intros ->;
      apply Hn; unfold default_variables; set_solver. }
  assert (Hskip : data !! name = None ∨ data !! name = Some VNone →
                  ∃ s1, (e, Returned)
                        = (set_objects (<[strategy := s1]> (objects e)) e, Returned)
                        ∧ restored_from data dp dt [name] s0 s1).
  { intros Hnone. exists s0. split; [by rewrite <- Hid|].
    unfold restored_from.
    rewrite !decide_False by (rewrite Hsingle; done).
    repeat split. intros n Hn.
    destruct (decide (n = name)) as [->|Hne].
    - by destruct Hnone as [-> | ->].
    - destruct (data !! n) as [[]|] eqn:Hd; try done;
        rewrite decide_False; try done; rewrite Hsingle; done. }
  unfold restore_variable.
  destruct (data !! name) as [value|] eqn:Hdata.
  2:{ apply Hskip. by left. }
  destruct (decide (name = "inited")) as [->|Hni]; [congruence|].
  destruct (decide (name = "trading")) as [->|Hntr]; [congruence|].
  assert (Hset : ∀ v, v ≠ VNone → data !! name = Some v →
            ∃ s1, (upd_strategy strategy (setattr name v) e, Returned)
                  = (set_objects (<[strategy := s1]> (objects e)) e, Returned)
                  ∧ restored_from data dp dt [name] s0 s1).
  { intros v Hv Hdv. rewrite Hupd. eexists. split; [reflexivity|].
    unfold setattr. rewrite !decide_False by done.
    unfold restored_from.
    cbn [pos_data target_data inited trading strategy_name vt_symbols variables
         orders active_orderids attrs set_attrs].
    rewrite !decide_False by (rewrite Hsingle; done).
    repeat split. intros n Hn.
    destruct (decide (n = name)) as [->|Hne].
    - rewrite lookup_insert_eq, Hdv.
      rewrite decide_True by (by apply Hsingle). by destruct v.
    - rewrite lookup_insert_ne by done.
      destruct (data !! n) as [[]|]; try done;
        rewrite decide_False; try done; rewrite Hsingle; done. }
  rewrite !decide_False by done.
  destruct value; try (apply Hset; done).
  apply Hskip. by right.
Qed.

Lemma restored_from_cons data dp dt name names s0 s1 s2 :
  restored_from data dp dt [name] s0 s1 →
  restored_from data dp dt names s1 s2 →
  restored_from data dp dt (name :: names) s0 s2.
Proof.
  intros (Hp1 & Ht1 & Hi1 & Htr1 & Hn1 & Hv1 & Hvar1 & Ho1 & Ha1 & Hat1)
         (Hp2 & Ht2 & Hi2 & Htr2 & Hn2 & Hv2 & Hvar2 & Ho2 & Ha2 & Hat2).
  assert (Hmem : ∀ k : string, k ∈ name :: names ↔ k ∈ [name] ∨ k ∈ names).
  { intros k. rewrite !elem_of_cons. set_solver. }
  unfold restored_from.
  split; [|split; [|repeat split; try congruence]].
  - rewrite Hp2, Hp1.
    destruct (decide ("pos_data" ∈ names)), (decide ("pos_data" ∈ [name]));
      (rewrite decide_True by (apply Hmem; tauto))
      || (rewrite decide_False by (rewrite Hmem; tauto));
      by rewrite ?union_union_same.
  - rewrite Ht2, Ht1.
    destruct (decide ("target_data" ∈ names)), (decide ("target_data" ∈ [name]));
      (rewrite decide_True by (apply Hmem; tauto))
      || (rewrite decide_False by (rewrite Hmem; tauto));
      by rewrite ?union_union_same.
  - intros k Hk. rewrite (Hat2 k Hk), (Hat1 k Hk).
    destruct (data !! k) as [[]|]; try done;
      destruct (decide (k ∈ names)), (decide (k ∈ [name]));
      (rewrite decide_True by (apply Hmem; tauto))
      || (rewrite decide_False by (rewrite Hmem; tauto));
      done.
Qed.

(** The loop that restores the variables. *)
Lemma restore_loop strategy data dp dt names e s0 :
  data !! "pos_data" = Some (VDict dp) →
  data !! "target_data" = Some (VDict dt) →
  data !! "inited" = None → data !! "trading" = None →
  objects e !! strategy = Some s0 →
  ∃ s1,
    foldl (restore_variable strategy data) (e, Returned) names
      = (set_objects (<[strategy := s1]> (objects e)) e, Returned)
    ∧ restored_from data dp dt names s0 s1.
Proof.
  intros Hpos Htarget Hinited Htrading. revert e s0.
  induction names as [|name names IH]; intros e s0 Hs0.
  - exists s0. split; [|apply restored_from_nil].
    cbn [foldl]. rewrite insert_id by done. by destruct e.
  - cbn [foldl].
    destruct (restore_variable_step strategy data dp dt name e s0
                Hpos Htarget Hinited Htrading Hs0) as (s1 & -> & Hres1).
    destruct (IH (set_objects (<[strategy := s1]> (objects e)) e) s1)
      as (s2 & -> & Hres2).
    { cbn [objects set_objects]. apply lookup_insert_eq. }
    exists s2. split; [|by eapply restored_from_cons].
    cbn [objects set_objects]. by rewrite insert_insert_eq.
Qed.

Lemma subscriptions_snoc l x :
  subscriptions (l ++ [x]) =
  subscriptions l ++ match x with ESubscribe req gw => [(req, gw)] | _ => [] end.
Proof.
  unfold subscriptions. rewrite omap_app. by destruct x.
Qed.

Lemma log_messages_snoc l x :
  log_messages (l ++ [x]) =
  log_messages l ++ match x with ELog msg => [msg] | _ => [] end.
Proof.
  unfold log_messages. rewrite omap_app. by destruct x.
Qed.

Lemma strategy_events_snoc l x :
  strategy_events (l ++ [x]) =
  strategy_events l ++ match x with EStrategy name vars => [(name, vars)] | _ => [] end.
Proof.
  unfold strategy_events. rewrite omap_app. by destruct x.
Qed.

(** The subscription loop asks for the quotes of every contract that is
    known, in the order of [vt_symbols], logs the others, and touches nothing
    but the collaborators. *)
Lemma subscribe_loop strategy symbols e :
  let e' := foldl (subscribe_symbol env strategy) e symbols in
  objects e' = objects e
  ∧ strategy_data e' = strategy_data e
  ∧ strategies e' = strategies e
  ∧ orderid_strategy_map e' = orderid_strategy_map e
  ∧ subscriptions (effects e') =
    subscriptions (effects e) ++
    omap (λ vt_symbol,
            (λ contract,
               ({| sub_symbol := contract_symbol contract;
                   sub_exchange := contract_exchange contract |},
                contract_gateway_name contract))
              <$> get_contract env vt_symbol) symbols
  ∧ sent_orders (effects e') = sent_orders (effects e)
  ∧ json_writes (effects e') = json_writes (effects e)
  ∧ strategy_events (effects e') = strategy_events (effects e)
  ∧ log_messages (effects e') =
    log_messages (effects e) ++
    omap (λ vt_symbol,
            match get_contract env vt_symbol with
            | Some _ => None
            | None =>
                Some (read strategy strategy_name "" e +:+ ": " +:+
                      ("Quote subscription failed, contract " +:+ vt_symbol
                       +:+ " not found"))
            end) symbols.
Proof.
  revert e. induction symbols as [|k symbols IH]; intros e.
  - cbn. by rewrite !app_nil_r.
  - cbn [foldl]. cbv zeta. specialize (IH (subscribe_symbol env strategy e k)).
    cbv zeta in IH. destruct IH as (-> & -> & -> & -> & -> & -> & -> & -> & ->).
    assert (Hname : read strategy strategy_name "" (subscribe_symbol env strategy e k)
                    = read strategy strategy_name "" e).
    { apply read_same_objects. unfold subscribe_symbol.
      by destruct (get_contract env k). }
    rewrite Hname.
    unfold subscribe_symbol, write_log. cbn [omap list_omap].
    destruct (get_contract env k) as [contract|];
      cbn [emit objects strategy_data strategies orderid_strategy_map effects
           fmap option_fmap option_map];
      rewrite subscriptions_snoc, sent_orders_snoc, json_writes_snoc,
        strategy_events_snoc, log_messages_snoc;
      rewrite ?app_nil_r, <- ?app_assoc; done.
Qed.

Lemma truthy_data_with_key (data : gmap string pyvalue) k v :
  data !! k = Some v → truthy data = true.
Proof.
  intros Hk. unfold truthy, gmap_truthy.
  rewrite bool_decide_eq_false_2; [done|].
  intros Hempty. assert (Hdom : k ∈ dom data) by (apply elem_of_dom; eauto).
  rewrite Hempty in Hdom. by apply not_elem_of_empty in Hdom.
Qed.

(** Initialization after the hook, when the data file has the positions and
    the targets of the strategy. *)
Lemma init_strategy_with_data name strategy e s1 data dp dt :
  strategies e !! name = Some strategy →
  read strategy inited false e = false →
  let e1 := call_strategy_func (P:=unit) strategy (method0 (on_init hooks strategy)) None
              (write_log (name +:+ " start performing initialization") None e) in
  objects e1 !! strategy = Some s1 →
  strategy_data e1 !! name = Some data →
  data !! "pos_data" = Some (VDict dp) →
  data !! "target_data" = Some (VDict dt) →
  data !! "inited" = None → data !! "trading" = None →
  ∃ e' s',
    _init_strategy env hooks name e = (e', Returned)
    ∧ objects e' = <[strategy := set_inited true s']> (objects e1)
    ∧ restored_from data dp dt (variables s1) s1 s'
    ∧ strategy_data e' = strategy_data e1
    ∧ subscriptions (effects e') =
      subscriptions (effects e1) ++
      omap (λ vt_symbol,
              (λ contract,
                 ({| sub_symbol := contract_symbol contract;
                     sub_exchange := contract_exchange contract |},
                  contract_gateway_name contract))
                <$> get_contract env vt_symbol) (vt_symbols s1).
Proof.
  intros Hname Hnew e1 Hs1 Hdata Hpos Htarget Hi Ht.
  unfold _init_strategy. rewrite Hname, Hnew. cbv zeta. fold e1.
  rewrite Hdata.
  rewrite (truthy_data_with_key data _ _ Hpos), (read_lookup _ _ _ _ _ Hs1).
  destruct (restore_loop strategy data dp dt (variables s1) e1 s1 Hpos Htarget Hi Ht Hs1)
    as (s' & -> & Hres).
  set (e2 := set_objects (<[strategy := s']> (objects e1)) e1).
  assert (Hs2 : objects e2 !! strategy = Some s') by apply lookup_insert_eq.
  rewrite (read_lookup _ _ _ _ _ Hs2).
  assert (Hsym : vt_symbols s' = vt_symbols s1) by apply Hres.
  rewrite Hsym.
  destruct (subscribe_loop strategy (vt_symbols s1) e2)
    as (Hobj & Hdata3 & _ & _ & Hsub & _ & _ & _ & _).
  cbv zeta in Hobj, Hdata3, Hsub.
  set (e3 := foldl (subscribe_symbol env strategy) e2 (vt_symbols s1)) in *.
  eexists _, s'. split; [reflexivity|].
  assert (Hobj4 : objects (upd_strategy strategy (set_inited true) e3)
                  = <[strategy := set_inited true s']> (objects e1)).
  { unfold upd_strategy. cbn [objects set_objects]. rewrite Hobj.
    subst e2. cbn [objects set_objects].
    apply map_eq. intros r'.
    destruct (decide (strategy = r')) as [->|Hne].
    - by rewrite lookup_alter_eq, !lookup_insert_eq.
    - by rewrite lookup_alter_ne, !lookup_insert_ne. }
  split.
  { rewrite objects_write_log, objects_put_strategy_event. exact Hobj4. }
  split; [exact Hres|].
  unfold put_strategy_event.
  destruct (objects (upd_strategy strategy (set_inited true) e3) !! strategy);
    cbn [write_log emit strategy_data effects upd_strategy set_objects];
    rewrite ?subscriptions_snoc, ?app_nil_r, Hsub, Hdata3; subst e2;
    cbn [strategy_data effects set_objects]; done.
Qed.

(** X9. Saved variables come back at initialization.  The strategy is not
    initialized; [on_init] has run, returning or raising, and has left the
    strategy [s1], which has a value for every variable it lists and every
    parameter of its class.  When the data file then holds, under the name
    of the strategy, what [sync_strategy_data] saved of a strategy [s0], the
    pass returns; it merges the saved positions and targets over those the
    hook left, so that a saved position or target is read back, and assigns
    every other saved variable that is not [None]; the flags are not
    restored: [inited] becomes true and [trading] stays as the hook left
    it. *)
Theorem init_strategy_restores_saved_variables name strategy (g : Registry) cls s1 s0 :
  strategies (engine g) !! name = Some strategy →
  read strategy inited false (engine g) = false →
  let e1 := call_strategy_func (P:=unit) strategy (method0 (on_init hooks strategy)) None
              (write_log (name +:+ " start performing initialization") None (engine g)) in
  objects e1 !! strategy = Some s1 →
  class_of g !! strategy = Some cls → well_formed cls s1 →
  strategy_data e1 !! name = Some (saved_variables s0) →
  "pos_data" ∈ variables s0 → "target_data" ∈ variables s0 →
  "pos_data" ∈ variables s1 → "target_data" ∈ variables s1 →
  let r := _init_strategy env hooks name (engine g) in
  r.2 = Returned
  ∧ read strategy pos_data ∅ r.1 = pos_data s0 ∪ pos_data s1
  ∧ read strategy target_data ∅ r.1 = target_data s0 ∪ target_data s1
  ∧ (∀ i v, pos_data s0 !! i = Some v → get_pos strategy i r.1 = v)
  ∧ (∀ i v, target_data s0 !! i = Some v → (get_target strategy i r.1).2 = v)
  ∧ (∀ n, n ∈ variables s0 → n ∈ variables s1 → n ∉ default_variables →
          getattr s0 n ≠ VNone →
          read strategy (λ s', getattr s' n) VNone r.1 = getattr s0 n)
  ∧ read strategy inited false r.1 = true
  ∧ read strategy trading false r.1 = trading s1.
Proof.
  intros Hname Hnew e1 Hs1 _ _ Hdata Hp0 Ht0 Hp Ht r. subst r.
  destruct (init_strategy_with_data name strategy (engine g) s1 (saved_variables s0)
              (pos_data s0) (target_data s0) Hname Hnew Hs1 Hdata)
    as (e' & s' & -> & Hobj & Hres & _).
  { rewrite saved_variables_lookup.
    rewrite decide_False by (intros [?|?]; done). by rewrite decide_True. }
  { rewrite saved_variables_lookup.
    rewrite decide_False by (intros [?|?]; done). by rewrite decide_True. }
  { rewrite saved_variables_lookup. by rewrite decide_True by (by left). }
  { rewrite saved_variables_lookup. by rewrite decide_True by (by right). }
  destruct Hres as (Hpos & Htarget & Hi & Htr & _ & _ & _ & _ & _ & Hattrs).
  rewrite decide_True in Hpos by done. rewrite decide_True in Htarget by done.
  assert (Hs' : objects e' !! strategy = Some (set_inited true s'))
    by (rewrite Hobj; apply lookup_insert_eq).
  cbn [fst snd]. unfold get_pos. cbn [get_target snd].
  rewrite !(read_lookup _ _ _ _ _ Hs').
  cbn [pos_data target_data inited trading set_inited].
  split; [done|]. split; [done|]. split; [done|]. split.
  { intros i v Hv. rewrite (read_lookup _ _ _ _ _ Hs').
    cbn [pos_data set_inited]. rewrite Hpos.
    by rewrite (lookup_union_Some_l _ _ _ _ Hv). }
  split.
  { intros i v Hv. rewrite (read_lookup _ _ _ _ _ Hs').
    cbn [target_data set_inited]. rewrite Htarget.
    by rewrite (lookup_union_Some_l _ _ _ _ Hv). }
  split; [|done].
  intros n Hn0 Hn Hnd Hval.
  assert (Hni : n ≠ "inited") by (intros ->; apply Hnd; unfold default_variables; set_solver).
  assert (Hnt : n ≠ "trading") by (intros ->; apply Hnd; unfold default_variables; set_solver).
  assert (Hnp : n ≠ "pos_data") by (intros ->; apply Hnd; unfold default_variables; set_solver).
  assert (Hntd : n ≠ "target_data")
    by (intros ->; apply Hnd; unfold default_variables; set_solver).
  specialize (Hattrs n Hnd). rewrite saved_variables_lookup in Hattrs.
  rewrite decide_False in Hattrs by (intros [?|?]; done).
  rewrite decide_True in Hattrs by done.
  rewrite decide_True in Hattrs by done.
  rewrite (read_lookup _ _ _ _ _ Hs').
  unfold getattr at 1. rewrite !decide_False by done.
  cbn [attrs set_inited]. rewrite Hattrs.
  by destruct (getattr s0 n).
Qed.

(** X10. Initialization of a strategy for which the data file holds
    nothing.  The strategy is not initialized; [on_init] has run, returning
    or raising, and has left the strategy [s1], which has a value for every
    variable it lists and every parameter of its class; the data file then
    holds nothing, or an empty dictionary, under its name.  The pass
    returns; the strategy becomes initialized and is otherwise as the hook
    left it; the quotes of every known contract of [vt_symbols] are
    subscribed, in order, at the gateway of the contract; a missing contract
    is logged and stops nothing; one notification of the new state is put
    and the completion is logged; no order is sent and no file is written on
    top of what the hook did. *)
Theorem init_strategy_subscribes name strategy (g : Registry) cls s1 :
  strategies (engine g) !! name = Some strategy →
  read strategy inited false (engine g) = false →
  let e1 := call_strategy_func (P:=unit) strategy (method0 (on_init hooks strategy)) None
              (write_log (name +:+ " start performing initialization") None (engine g)) in
  objects e1 !! strategy = Some s1 →
  class_of g !! strategy = Some cls → well_formed cls s1 →
  truthy (strategy_data e1 !! name) = false →
  let r := _init_strategy env hooks name (engine g) in
  r.2 = Returned
  ∧ objects r.1 = <[strategy := set_inited true s1]> (objects e1)
  ∧ subscriptions (effects r.1) =
    subscriptions (effects e1) ++
    omap (λ vt_symbol,
            (λ contract,
               ({| sub_symbol := contract_symbol contract;
                   sub_exchange := contract_exchange contract |},
                contract_gateway_name contract))
              <$> get_contract env vt_symbol) (vt_symbols s1)
  ∧ log_messages (effects r.1) =
    log_messages (effects e1)
    ++ omap (λ vt_symbol,
               match get_contract env vt_symbol with
               | Some _ => None
               | None =>
                   Some (strategy_name s1 +:+ ": " +:+
                         ("Quote subscription failed, contract " +:+ vt_symbol
                          +:+ " not found"))
               end) (vt_symbols s1)
    ++ [name +:+ " initialization complete"]
  ∧ strategy_events (effects r.1) =
    strategy_events (effects e1)
    ++ [(strategy_name s1, get_variables (set_inited true s1))]
  ∧ sent_orders (effects r.1) = sent_orders (effects e1)
  ∧ json_writes (effects r.1) = json_writes (effects e1)
  ∧ strategy_data r.1 = strategy_data e1.
Proof.
  intros Hname Hnew e1 Hs1 _ _ Hdata r. subst r.
  unfold _init_strategy. rewrite Hname, Hnew. cbv zeta. fold e1.
  assert (Hskip : match strategy_data e1 !! name with
                  | Some data =>
                      if truthy data
                      then foldl (restore_variable strategy data) (e1, Returned)
                                 (read strategy variables [] e1)
                      else (e1, Returned)
                  | None => (e1, Returned)
                  end = (e1, Returned)).
  { destruct (strategy_data e1 !! name) as [data|]; [|done].
    cbn [truthy option_truthy] in Hdata.
    change (truthy data = false) in Hdata. by rewrite Hdata. }
  rewrite Hskip.
  rewrite (read_lookup _ _ _ _ _ Hs1).
  destruct (subscribe_loop strategy (vt_symbols s1) e1)
    as (Hobj & Hdata3 & _ & _ & Hsub & Hsent & Hjson & Hev & Hlog).
  cbv zeta in Hobj, Hdata3, Hsub, Hsent, Hjson, Hev, Hlog.
  rewrite (read_lookup _ _ _ _ _ Hs1) in Hlog.
  set (e3 := foldl (subscribe_symbol env strategy) e1 (vt_symbols s1)) in *.
  assert (Hs4 : objects (upd_strategy strategy (set_inited true) e3) !! strategy
                = Some (set_inited true s1)).
  { unfold upd_strategy. cbn [objects set_objects].
    by rewrite lookup_alter_eq, Hobj, Hs1. }
  unfold put_strategy_event. rewrite Hs4.
  cbn [fst snd write_log emit objects strategy_data effects upd_strategy set_objects
       strategy_name set_inited].
  rewrite !subscriptions_snoc, !log_messages_snoc, !strategy_events_snoc,
    !sent_orders_snoc, !json_writes_snoc, !app_nil_r.
  rewrite Hobj, Hdata3, Hsub, Hsent, Hjson, Hev, Hlog.
  split; [done|]. split.
  { apply map_eq. intros r'.
    destruct (decide (strategy = r')) as [->|Hne].
    - by rewrite lookup_alter_eq, lookup_insert_eq, Hs1.
    - by rewrite lookup_alter_ne, lookup_insert_ne. }
  split; [done|]. split; [by rewrite <- !app_assoc|]. done.
Qed.


(** X12. [load_bars] of a strategy for whose contracts no source has a bar
    calls [on_bars] not once and leaves the state as it is. *)
Theorem load_bars_without_history strategy days interval e :
  (∀ vt_symbol, vt_symbol ∈ read strategy vt_symbols [] e →
                load_bar env vt_symbol days interval = []) →
  load_bars env hooks strategy days interval e = e.
Proof.
  intros Hnone. unfold load_bars.
  assert (Hcollect : collect_history env (read strategy vt_symbols [] e) days interval
                     = (∅, ∅)).
  { unfold collect_history. revert Hnone.
    generalize (read strategy vt_symbols [] e). intros symbols Hnone.
    induction symbols as [|k symbols IH]; [done|].
    cbn [foldl]. rewrite Hnone by (apply elem_of_cons; by left). cbn [foldl].
    apply IH. intros k' Hk'. apply Hnone. apply elem_of_cons. by right. }
  rewrite Hcollect. rewrite elements_empty. reflexivity.
Qed.

(** X13. [set_target] followed by [get_target] gives the target that was
    set; the targets of the other contracts, every position, the other
    strategies and the collaborators are untouched.  A target or a position
    that was never set reads as 0. *)
Theorem set_target_get_target self k target e s :
  objects e !! self = Some s →
  let e' := set_target self k target e in
  (get_target self k e').2 = target
  ∧ (∀ k', k' ≠ k → (get_target self k' e').2 = (get_target self k' e).2)
  ∧ (∀ k', get_pos self k' e' = get_pos self k' e)
  ∧ (∀ r, r ≠ self → objects e' !! r = objects e !! r)
  ∧ effects e' = effects e
  ∧ (target_data s !! k = None → (get_target self k e).2 = 0)
  ∧ (pos_data s !! k = None → get_pos self k e = 0).
Proof.
  intros Hs e'. subst e'.
  unfold set_target, get_target, get_pos, read, upd_strategy.
  cbn [fst snd objects set_objects effects].
  rewrite lookup_alter_eq, Hs. cbn [fmap option_fmap option_map target_data pos_data
                                    set_target_data].
  split; [by rewrite lookup_insert_eq|]. split.
  { intros k' Hk'. by rewrite lookup_insert_ne. }
  split; [done|]. split.
  { intros r Hr. by rewrite lookup_alter_ne. }
  split; [done|]. split; by intros ->.
Qed.

(** *** Ticks *)

(** X14. A tick for a contract under which no initialized strategy is
    registered reaches no strategy: whatever [on_tick] is, the strategy
    objects and the collaborators are as before; the only trace is the entry
    that the [defaultdict] creates for a contract without one. *)
Theorem tick_before_initialization_is_dropped
    (on_tick : ref → TickData → callback) tick e :
  let listed := default [] (symbol_strategy_map e !! tick_vt_symbol tick) in
  Forall (λ strategy, read strategy inited false e = false) listed →
  process_tick_event on_tick tick e =
  set_symbol_strategy_map (<[tick_vt_symbol tick := listed]> (symbol_strategy_map e)) e.
Proof.
  intros listed Hall. unfold process_tick_event. fold listed.
  set (e0 := set_symbol_strategy_map _ e).
  destruct (truthy listed); [|done]. cbn [negb].
  assert (Hall0 : Forall (λ strategy, read strategy inited false e0 = false) listed)
    by exact Hall.
  clearbody e0. clear Hall. induction Hall0 as [|r rest Hr _ IH]; [done|].
  cbn [foldl]. by rewrite Hr.
Qed.

(** *** The registry *)


















(** *** Stopping every strategy *)

Lemma strategies_cancel_all self e : strategies (cancel_all env self e) = strategies e.
Proof.
  unfold cancel_all. generalize (elements (read self active_orderids ∅ e)).
  intros ids. revert e. induction ids as [|i ids IH]; intros e; [done|].
  cbn [foldl]. rewrite IH. unfold cancel_order, StrategyEngine_cancel_order.
  destruct (read self trading false e); [|done]. by destruct (get_order env i).
Qed.





(** *** The setting file *)






End Facts.

Lemma not_trading_forwards_nothing_witness :
  let e := Sample.engine (Sample.strategy_s true false) in
  (trading <$> objects e !! 0%nat = Some false)
  ∧ send_order Sample.env 0%nat "A.X" LONG OPEN 100 3 false false e = (e, [])
  ∧ cancel_order Sample.env 0%nat "GW.o1" e = e.
Proof.
  intros e.
  assert (H : trading <$> objects e !! 0%nat = Some false) by reflexivity.
  split; [exact H|].
  pose proof (not_trading_forwards_nothing Sample.env 0%nat e "A.X" LONG OPEN
                100 3 false false "GW.o1" H) as (H1 & _ & _ & _ & _ & H6).
  split; [exact H1 | exact H6].
Defined.



(** C8, as the specification states it, fails: the direct feed of [A.X] is
    available and answers with no bar, the data service has a bar, and
    [load_bar] returns the bar of the local store. *)
Lemma load_bar_skips_data_service :
  direct_feed_available Sample.env "A.X" = true
  ∧ direct_feed Sample.env "A.X" 1 MINUTE = []
  ∧ data_service Sample.env "A.X" 1 MINUTE = [Sample.bar "A" 60 100]
  ∧ load_bar_by_priority Sample.env "A.X" 1 MINUTE = [Sample.bar "A" 60 100]
  ∧ load_bar Sample.env "A.X" 1 MINUTE = [Sample.bar "A" 120 200]
  ∧ load_bar Sample.env "A.X" 1 MINUTE ≠ load_bar_by_priority Sample.env "A.X" 1 MINUTE.
Proof.
  repeat split; try reflexivity. discriminate.
Qed.

Lemma rebalance_legs_net_to_target_witness :
  let e := Sample.engine Sample.short_of_target in
  let legs := filter (λ l, leg_symbol l = "A.X")
                     (rebalance_legs template_hooks 0%nat Sample.bars_A e) in
  Sample.bars_A !! "A.X" = Some (Sample.bar "A" 60 100)
  ∧ legs = [ {| leg_symbol := "A.X"; leg_direction := SHORT; leg_offset := CLOSE;
                leg_price := 100; leg_volume := 3 |};
             {| leg_symbol := "A.X"; leg_direction := SHORT; leg_offset := OPEN;
                leg_price := 100; leg_volume := 2 |} ]
  ∧ net_volume legs = -5.
Proof.
  intros e legs.
  assert (H : Sample.bars_A !! "A.X" = Some (Sample.bar "A" 60 100)) by reflexivity.
  split; [exact H|].
  pose proof (rebalance_legs_net_to_target Sample.env template_hooks 0%nat
                Sample.bars_A e "A.X" _ H) as (_ & Hlegs & Hnet).
  split.
  - etrans; [exact Hlegs|]. vm_compute. reflexivity.
  - etrans; [exact Hnet|]. vm_compute. reflexivity.
Defined.

Lemma rebalance_at_target_sends_nothing_witness :
  let e := Sample.engine Sample.at_target in
  let e' := rebalance_portfolio Sample.env template_hooks 0%nat Sample.bars_A e in
  rebalance_legs template_hooks 0%nat Sample.bars_A e = []
  ∧ sent_orders (effects e') = []
  ∧ orderid_strategy_map e' = orderid_strategy_map e.
Proof.
  intros e e'.
  assert (H : ∀ i bar, Sample.bars_A !! i = Some bar →
                       get_pos 0%nat i e = (get_target 0%nat i e).2).
  { intros i bar Hi. unfold Sample.bars_A in Hi.
    apply lookup_singleton_Some in Hi as [<- _]. reflexivity. }
  pose proof (rebalance_at_target_sends_nothing Sample.env template_hooks 0%nat
                Sample.bars_A e H) as (Hlegs & Hsent & Hmap & _).
  split; [exact Hlegs|]. split; [exact Hsent | exact Hmap].
Defined.

Example rebalance_sample_orders :
  (λ x, (req_direction x.1, req_offset x.1, req_price x.1, req_volume x.1)) <$>
    sent_orders (effects (rebalance_portfolio Sample.env template_hooks 0%nat Sample.bars_A
                            (Sample.engine Sample.short_of_target)))
  = [(SHORT, CLOSE, 100, 3); (SHORT, OPEN, 100, 2)].
Proof. vm_compute. reflexivity. Qed.

Lemma replay_position_is_sum_of_fills_witness :
  let e := Sample.engine (Sample.strategy_s true true) in
  let trades := [Sample.fill "t1" LONG 5; Sample.fill "t1" LONG 5; Sample.fill "t2" SHORT 2] in
  objects e !! 0%nat = Some (Sample.strategy_s true true)
  ∧ get_pos 0%nat "A.X" (replay trades e) = 3
  ∧ process_trade_event (Sample.fill "t1" LONG 5) (replay trades e) = replay trades e.
Proof.
  intros e trades.
  assert (H : objects e !! 0%nat = Some (Sample.strategy_s true true)) by reflexivity.
  split; [exact H|].
  pose proof (replay_position_is_sum_of_fills trades e 0%nat _ "A.X" H)
    as (Hpos & _ & _ & Hagain).
  split.
  - etrans; [exact Hpos|]. vm_compute. reflexivity.
  - apply Hagain. apply elem_of_cons. by left.
Defined.

(** C2, on the code. The [on_init] hook of the strategy raises;
    [call_strategy_func] turns both flags off and logs the exception, and
    [_init_strategy] goes on to its end, where it sets [inited] again: the
    pass ends with [inited] true and the message of a completed
    initialization. *)
Theorem init_strategy_failed_hook_ends_inited :
  let r := _init_strategy Sample.env Sample.failing_hooks "s"
             (Sample.engine (Sample.strategy_s false false)) in
  r.2 = Returned
  ∧ inited <$> objects r.1 !! 0%nat = Some true
  ∧ trading <$> objects r.1 !! 0%nat = Some false
  ∧ log_messages (effects r.1) =
    ["s start performing initialization";
     "s: Trigger exception stopped ";
     "s: Quote subscription failed, contract B.X not found";
     "s initialization complete"].
Proof. vm_compute. repeat split; reflexivity. Qed.

(** C3, on the code. The strategy is trading and has the active order
    [GW.o1], which the main engine knows.  [stop_strategy] turns [trading]
    off before it calls [cancel_all], so that [cancel_order] forwards nothing:
    no cancel request is sent and the order stays in [active_orderids].  The
    data file is written once.  Called while the strategy is trading,
    [cancel_all] does send the request. *)
Theorem stop_strategy_sends_no_cancel :
  let e := Sample.engine Sample.with_active_order in
  let r := stop_strategy Sample.env template_hooks "s" e in
  get_order Sample.env "GW.o1" = Some Sample.order_o1
  ∧ elements <$> (active_orderids <$> objects e !! 0%nat) = Some ["GW.o1"]
  ∧ r.2 = Returned
  ∧ trading <$> objects r.1 !! 0%nat = Some false
  ∧ sent_cancels (effects r.1) = []
  ∧ elements <$> (active_orderids <$> objects r.1 !! 0%nat) = Some ["GW.o1"]
  ∧ length (json_writes (effects r.1)) = 1%nat
  ∧ sent_cancels (effects (cancel_all Sample.env 0%nat e)) =
    [(create_cancel_request Sample.order_o1, "GW")].
Proof. vm_compute. repeat split; reflexivity. Qed.

Example load_bars_sample :
  let vt_symbols := ["A.X"; "B.X"] in
  let collected := collect_history Sample.env vt_symbols 1 MINUTE in
  let dts := merge_sort Z.le (elements collected.1) in
  dts = [60; 120]
  ∧ map_to_list <$> bar_slices collected.2 vt_symbols dts ∅ =
    [ [("B.X", Sample.bar "B.X" 60 100)];
      [("A.X", Sample.bar "A" 120 200);
       ("B.X", fill_bar (Sample.bar "B.X" 60 100) 120)] ].
Proof. vm_compute. split; reflexivity. Qed.

Lemma engine_send_order_contract_lookup_witness :
  let e := Sample.engine (Sample.strategy_s true true) in
  sent_orders (effects (StrategyEngine_send_order Sample.env 0%nat "A.X" LONG OPEN
                          103 3 false false e).1) =
    [ ({| req_symbol := "A"; req_exchange := "X"; req_direction := LONG;
          req_offset := OPEN; req_type := LIMIT; req_price := 100; req_volume := 3;
          req_reference := "PortfolioStrategy_s" |}, "GW") ]
  ∧ StrategyEngine_send_order Sample.env 0%nat "B.X" LONG OPEN 103 3 false false e =
    (emit (ELog "s: Order failed, contract not found: B.X") e, []).
Proof.
  intros e. split.
  - exact (engine_send_order_contract_lookup Sample.env 0%nat "A.X" LONG OPEN
             103 3 false false e).
  - exact (engine_send_order_contract_lookup Sample.env 0%nat "B.X" LONG OPEN
             103 3 false false e).
Defined.

Lemma load_bar_primary_then_local_store_witness :
  load_bar Sample.env "A.X" 1 MINUTE = [Sample.bar "A" 120 200]
  ∧ load_bar Sample.env "B.X" 1 MINUTE = [Sample.bar "B.X" 60 100].
Proof.
  split.
  - etrans; [apply load_bar_primary_then_local_store|]. reflexivity.
  - etrans; [apply load_bar_primary_then_local_store|]. reflexivity.
Defined.


(** ** The further properties on sample data *)



(** A strategy of the class that lists nothing, with the four default
    variables, is well formed. *)
Lemma plain_well_formed s :
  variables s = default_variables → well_formed Desk.plain s.
Proof.
  intros Hvars. split.
  - constructor.
  - unfold defines_variables. rewrite Hvars. apply Forall_forall. intros n Hn. by left.
Qed.

Lemma send_order_registers_ids_witness :
  let e := Sample.engine (Sample.strategy_s true true) in
  let r := send_order Sample.env 0%nat "A.X" LONG OPEN 100 3 false false e in
  objects e !! 0%nat = Some (Sample.strategy_s true true)
  ∧ trading (Sample.strategy_s true true) = true
  ∧ r.2 = ["GW.o2"]
  ∧ orderid_strategy_map r.1 !! "GW.o2" = Some 0%nat
  ∧ orderid_strategy_map r.1 !! "GW.o1" = Some 0%nat
  ∧ objects r.1 !! 0%nat =
    Some (set_active_orderids {[ "GW.o2" ]} (Sample.strategy_s true true)).
Proof.
  intros e r.
  assert (H1 : objects e !! 0%nat = Some (Sample.strategy_s true true)) by reflexivity.
  assert (H2 : trading (Sample.strategy_s true true) = true) by reflexivity.
  split; [exact H1|]. split; [exact H2|].
  pose proof (send_order_registers_ids Sample.env 0%nat "A.X" LONG OPEN 100 3 false false
                e _ H1 H2) as (_ & Hmap & Hobj & _).
  split; [reflexivity|]. split; [|split].
  - etrans; [apply Hmap|]. reflexivity.
  - etrans; [apply Hmap|]. reflexivity.
  - etrans; [exact Hobj|]. vm_compute. reflexivity.
Defined.

Lemma order_event_updates_owner_witness :
  let e := Sample.engine Sample.with_active_order in
  let e' := process_order_event Desk.order_o1_done e in
  get_order_of 0%nat "GW.o1" e' = Some Desk.order_o1_done
  ∧ read 0%nat active_orderids ∅ e' = ∅
  ∧ effects e' = [].
Proof.
  intros e e'.
  pose proof (order_event_updates_owner Desk.order_o1_done e) as [_ Hown].
  destruct (Hown 0%nat Sample.with_active_order eq_refl eq_refl)
    as (Horder & Hactive & _ & _ & _ & _ & _ & Heff).
  split; [exact Horder|]. split; [|exact Heff].
  etrans; [exact Hactive|]. vm_compute. reflexivity.
Defined.

Lemma cancel_all_trading_requests_witness :
  let e := Sample.engine Desk.with_lost_order in
  let e' := cancel_all Sample.env 0%nat e in
  objects e !! 0%nat = Some Desk.with_lost_order
  ∧ trading Desk.with_lost_order = true
  ∧ sent_cancels (effects e') = [(create_cancel_request Sample.order_o1, "GW")]
  ∧ log_messages (effects e') = ["s: Cancellation failed, commission not found GW.o9"]
  ∧ length (effects e') = 2%nat
  ∧ objects e' = objects e.
Proof.
  intros e e'.
  assert (H1 : objects e !! 0%nat = Some Desk.with_lost_order) by reflexivity.
  assert (H2 : trading Desk.with_lost_order = true) by reflexivity.
  split; [exact H1|]. split; [exact H2|].
  pose proof (cancel_all_trading_requests Sample.env 0%nat e _ H1 H2)
    as (Hcancels & Hlogs & Hlen & _ & Hobj & _).
  split; [|split; [|split]].
  - etrans; [exact Hcancels|]. vm_compute. reflexivity.
  - etrans; [exact Hlogs|]. vm_compute. reflexivity.
  - etrans; [exact Hlen|]. vm_compute. reflexivity.
  - exact Hobj.
Defined.

Lemma rebalance_portfolio_keeps_ledgers_witness :
  let e := Sample.engine Sample.short_of_target in
  let e' := rebalance_portfolio Sample.env template_hooks 0%nat Sample.bars_A e in
  get_pos 0%nat "A.X" e' = 3 ∧ (get_target 0%nat "A.X" e').2 = -2.
Proof.
  intros e e'.
  pose proof (rebalance_portfolio_keeps_ledgers Sample.env template_hooks 0%nat
                Sample.bars_A e 0%nat) as (_ & Hpos & Htarget & _).
  split.
  - etrans; [apply Hpos|]. reflexivity.
  - etrans; [apply Htarget|]. reflexivity.
Defined.

Lemma rebalance_portfolio_not_trading_is_silent_witness :
  let e := Sample.engine (set_trading false Sample.short_of_target) in
  let e' := rebalance_portfolio Sample.env template_hooks 0%nat Sample.bars_A e in
  trading <$> objects e !! 0%nat = Some false
  ∧ get_pos 0%nat "A.X" e ≠ (get_target 0%nat "A.X" e).2
  ∧ effects e' = []
  ∧ orderid_strategy_map e' = orderid_strategy_map e.
Proof.
  intros e e'.
  assert (H : trading <$> objects e !! 0%nat = Some false) by reflexivity.
  split; [exact H|]. split; [discriminate|].
  pose proof (rebalance_portfolio_not_trading_is_silent Sample.env template_hooks 0%nat
                Sample.bars_A e H) as (Heff & Hmap & _).
  split; [exact Heff | exact Hmap].
Defined.

Lemma replay_changes_positions_only_witness :
  let e := Sample.engine (Sample.strategy_s true true) in
  let e' := replay Desk.fills e in
  elements (vt_tradeids e') = elements ({[ "t1"; "t2" ]} : gset string)
  ∧ effects e' = []
  ∧ get_pos 0%nat "A.X" e' = 0.
Proof.
  intros e e'.
  pose proof (replay_changes_positions_only Desk.fills e)
    as (Hids & _ & Heff & _ & _ & _ & Hpos).
  split; [|split; [exact Heff|]].
  - subst e'. rewrite Hids. vm_compute. reflexivity.
  - etrans; [apply Hpos|reflexivity].
    intros trade Hin [Hmap _].
    apply elem_of_cons in Hin as [->|Hin]; [discriminate|].
    apply elem_of_cons in Hin as [->|Hin]; [discriminate|].
    by apply elem_of_nil in Hin.
Defined.

Lemma rebalance_then_fills_reach_target_witness :
  let e := Sample.engine Sample.short_of_target in
  let e' := rebalance_portfolio Sample.env template_hooks 0%nat Sample.bars_A e in
  objects e !! 0%nat = Some Sample.short_of_target
  ∧ get_pos 0%nat "A.X" e' = 3
  ∧ get_pos 0%nat "A.X" (replay Desk.fills e') = -2.
Proof.
  intros e e'.
  assert (H1 : objects e !! 0%nat = Some Sample.short_of_target) by reflexivity.
  split; [exact H1|]. split; [reflexivity|].
  etrans; [|reflexivity].
  apply (rebalance_then_fills_reach_target Sample.env template_hooks 0%nat Sample.bars_A
           e _ Desk.fills H1) with (bar := Sample.bar "A" 60 100).
  - vm_compute. repeat constructor.
  - vm_compute. repeat constructor; set_solver.
  - intros trade _. apply not_elem_of_empty.
  - reflexivity.
Defined.


Lemma init_strategy_restores_saved_variables_witness :
  let g := Desk.restart_registry in
  let r := _init_strategy Sample.env Desk.preparing_hooks "s" (engine g) in
  strategies (engine g) !! "s" = Some 0%nat
  ∧ read 0%nat inited false (engine g) = false
  ∧ strategy_data (engine g) !! "s" = Some (saved_variables Sample.short_of_target)
  ∧ get_pos 0%nat "A.X" (engine g) = 0
  ∧ r.2 = Returned
  ∧ get_pos 0%nat "A.X" r.1 = 3
  ∧ (get_target 0%nat "A.X" r.1).2 = -2
  ∧ read 0%nat target_data ∅ r.1 = {[ "A.X" := -2; "B.X" := 1 ]}
  ∧ read 0%nat inited false r.1 = true
  ∧ read 0%nat trading false r.1 = false.
Proof.
  intros g r.
  assert (H1 : strategies (engine g) !! "s" = Some 0%nat) by reflexivity.
  assert (H2 : read 0%nat inited false (engine g) = false) by reflexivity.
  split; [exact H1|]. split; [exact H2|]. split; [reflexivity|]. split; [reflexivity|].
  set (s1 := set_target_data {[ "A.X" := 0; "B.X" := 1 ]} (Sample.strategy_s false false)).
  assert (Hvars : ∀ n, n ∈ ["pos_data"; "target_data"] →
                       n ∈ ["inited"; "trading"; "pos_data"; "target_data"]).
  { intros n Hn. set_solver. }
  pose proof (init_strategy_restores_saved_variables Sample.env Desk.preparing_hooks
                "s" 0%nat g Desk.plain s1 Sample.short_of_target H1 H2
                ltac:(vm_compute; reflexivity) eq_refl
                (plain_well_formed s1 eq_refl)
                ltac:(vm_compute; reflexivity)
                (Hvars "pos_data" ltac:(set_solver))
                (Hvars "target_data" ltac:(set_solver))
                (Hvars "pos_data" ltac:(set_solver))
                (Hvars "target_data" ltac:(set_solver)))
    as (Hret & _ & Htargets & Hpos & Htarget & _ & Hinited & Htrading).
  split; [exact Hret|]. split; [|split; [|split; [|split]]].
  - apply Hpos. reflexivity.
  - apply Htarget. reflexivity.
  - etrans; [exact Htargets|]. vm_compute. reflexivity.
  - exact Hinited.
  - exact Htrading.
Defined.

Lemma init_strategy_subscribes_witness :
  let g := Desk.registry (Sample.strategy_s false false) in
  let r := _init_strategy Sample.env Desk.preparing_hooks "s" (engine g) in
  strategies (engine g) !! "s" = Some 0%nat
  ∧ read 0%nat inited false (engine g) = false
  ∧ strategy_data (engine g) !! "s" = None
  ∧ r.2 = Returned
  ∧ objects r.1 =
    {[ 0%nat := set_target_data {[ "A.X" := 0; "B.X" := 1 ]}
                  (Sample.strategy_s true false) ]}
  ∧ subscriptions (effects r.1) = [({| sub_symbol := "A"; sub_exchange := "X" |}, "GW")]
  ∧ log_messages (effects r.1) =
    ["s start performing initialization";
     "s: Strategy initialization";
     "s: Quote subscription failed, contract B.X not found";
     "s initialization complete"]
  ∧ json_writes (effects r.1) = [].
Proof.
  intros g r.
  assert (H1 : strategies (engine g) !! "s" = Some 0%nat) by reflexivity.
  assert (H2 : read 0%nat inited false (engine g) = false) by reflexivity.
  split; [exact H1|]. split; [exact H2|]. split; [reflexivity|].
  set (s1 := set_target_data {[ "A.X" := 0; "B.X" := 1 ]} (Sample.strategy_s false false)).
  pose proof (init_strategy_subscribes Sample.env Desk.preparing_hooks "s" 0%nat g
                Desk.plain s1 H1 H2 ltac:(vm_compute; reflexivity) eq_refl
                (plain_well_formed s1 eq_refl) ltac:(vm_compute; reflexivity))
    as (Hret & Hobj & Hsub & Hlog & _ & _ & Hjson & _).
  split; [exact Hret|]. split; [|split; [|split]].
  - etrans; [exact Hobj|]. vm_compute. reflexivity.
  - etrans; [exact Hsub|]. vm_compute. reflexivity.
  - etrans; [exact Hlog|]. vm_compute. reflexivity.
  - etrans; [exact Hjson|]. vm_compute. reflexivity.
Defined.


Lemma load_bars_without_history_witness :
  let e := Sample.engine (Sample.strategy_s false false) in
  load_bar Desk.no_history "A.X" 1 MINUTE = []
  ∧ load_bar Desk.no_history "B.X" 1 MINUTE = []
  ∧ load_bars Desk.no_history template_hooks 0%nat 1 MINUTE e = e.
Proof.
  intros e.
  assert (HA : load_bar Desk.no_history "A.X" 1 MINUTE = []) by reflexivity.
  assert (HB : load_bar Desk.no_history "B.X" 1 MINUTE = []) by reflexivity.
  split; [exact HA|]. split; [exact HB|].
  apply load_bars_without_history.
  intros vt_symbol Hin.
  change (vt_symbol ∈ ["A.X"; "B.X"]) in Hin.
  apply elem_of_cons in Hin as [->|Hin]; [exact HA|].
  apply elem_of_cons in Hin as [->|Hin]; [exact HB|].
  by apply elem_of_nil in Hin.
Defined.

Lemma set_target_get_target_witness :
  let e := Sample.engine Sample.short_of_target in
  let e' := set_target 0%nat "B.X" 7 e in
  objects e !! 0%nat = Some Sample.short_of_target
  ∧ (get_target 0%nat "B.X" e).2 = 0
  ∧ (get_target 0%nat "B.X" e').2 = 7
  ∧ (get_target 0%nat "A.X" e').2 = -2
  ∧ get_pos 0%nat "A.X" e' = 3.
Proof.
  intros e e'.
  assert (H1 : objects e !! 0%nat = Some Sample.short_of_target) by reflexivity.
  split; [exact H1|].
  pose proof (set_target_get_target 0%nat "B.X" 7 e _ H1)
    as (Hset & Hothers & Hpos & _ & _ & Hzero & _).
  split; [by apply Hzero|]. split; [exact Hset|]. split.
  - etrans; [by apply Hothers|]. reflexivity.
  - etrans; [apply Hpos|]. reflexivity.
Defined.

Lemma tick_before_initialization_is_dropped_witness :
  let e := Sample.engine (Sample.strategy_s false true) in
  symbol_strategy_map e !! "A.X" = Some [0%nat]
  ∧ read 0%nat inited false e = false
  ∧ process_tick_event Desk.failing_tick Desk.tick_A e = e.
Proof.
  intros e.
  split; [reflexivity|]. split; [reflexivity|].
  etrans; [apply tick_before_initialization_is_dropped|].
  - repeat constructor.
  - vm_compute. reflexivity.
Defined.






